(** * create_enrichment_comparison_table.py: merged enrichment table

    A shallow embedding of [src/create_enrichment_comparison_table.py]:
    the p-value normaliser [parse_p_value], the three per-method loaders,
    the merge / derived columns / sort of [create_comparison_table] and the
    file handling of [main], followed by the properties of the
    specification proved (or refuted) on these definitions.

    Numbers are IEEE binary64 values ([PrimFloat.float]), as the cells of a
    pandas float64 column are; the missing marker [np.nan] is the float
    NaN itself. Text is ASCII ([String.string]). *)

From Stdlib Require Import ZArith Lia Bool List String Ascii DecimalString.
From Stdlib Require Import Floats PrimFloat.
From Stdlib Require Import Permutation Sorted.
Import ListNotations.

Local Open Scope string_scope.
Local Open Scope list_scope.

(** ** Exceptions and the error monad

    The exceptions the program can meet: [KeyError] from [df['col']] on an
    absent column and [ValueError] from [float(text)]. *)

Inductive exn : Type :=
| KeyError (column : string)
| ValueError.

Definition result (A : Type) : Type := (exn + A)%type.

Definition ret {A : Type} (a : A) : result A := inr a.
Definition raise {A : Type} (e : exn) : result A := inl e.

Definition bind {A B : Type} (m : result A) (k : A -> result B) : result B :=
  match m with
  | inl e => inl e
  | inr a => k a
  end.

Notation "x <- m ;; k" := (bind m (fun x => k))
  (at level 61, m at next level, right associativity).

(** ** Python text primitives *)

Module PyStr.

(** [str.isspace] on one ASCII character, the whitespace of [str.strip]:
    TAB, LF, VT, FF, CR, the four separators 0x1C-0x1F and the space. *)
Definition isspace (c : ascii) : bool :=
  let n := nat_of_ascii c in
  (((9 <=? n) && (n <=? 13)) || ((28 <=? n) && (n <=? 32)))%nat.

(** The whitespace that [float(text)] skips around a literal (C's
    [isspace]): TAB, LF, VT, FF, CR and the space. *)
Definition is_c_space (c : ascii) : bool :=
  let n := nat_of_ascii c in
  (((9 <=? n) && (n <=? 13)) || (n =? 32))%nat.

(** Dropping the leading characters that satisfy [sp]. *)
Fixpoint lstrip_of (sp : ascii -> bool) (s : string) : string :=
  match s with
  | String c s' => if sp c then lstrip_of sp s' else s
  | EmptyString => EmptyString
  end.

(** Dropping the trailing characters that satisfy [sp]. *)
Fixpoint rstrip_of (sp : ascii -> bool) (s : string) : string :=
  match s with
  | EmptyString => EmptyString
  | String c s' =>
      match rstrip_of sp s' with
      | EmptyString => if sp c then EmptyString else String c EmptyString
      | r => String c r
      end
  end.

Definition strip_of (sp : ascii -> bool) (s : string) : string :=
  rstrip_of sp (lstrip_of sp s).

(** [s.strip()] *)
Definition strip (s : string) : string := strip_of isspace s.

(** [s.startswith(c)] for a one-character prefix. *)
Definition startswith (c : ascii) (s : string) : bool :=
  match s with
  | String c' _ => Ascii.eqb c c'
  | EmptyString => false
  end.

(** [s[1:]] *)
Definition tail (s : string) : string :=
  match s with
  | String _ s' => s'
  | EmptyString => EmptyString
  end.

Definition is_digit (c : ascii) : bool :=
  let n := nat_of_ascii c in ((48 <=? n) && (n <=? 57))%nat.

Definition digit_val (c : ascii) : Z := Z.of_nat (nat_of_ascii c - 48).

(** ASCII lower-casing, for the case-insensitive [inf] / [nan] spellings. *)
Definition lower (c : ascii) : ascii :=
  let n := nat_of_ascii c in
  if ((65 <=? n) && (n <=? 90))%nat then ascii_of_nat (n + 32) else c.

Fixpoint lower_str (s : string) : string :=
  match s with
  | EmptyString => EmptyString
  | String c s' => String (lower c) (lower_str s')
  end.

End PyStr.

(** ** [float(text)]

    Python's conversion of text to a binary64 value: surrounding
    whitespace (C's [isspace]) is dropped, single underscores between
    digits are allowed,
    then an optional sign and either [inf], [infinity], [nan] (any case)
    or a decimal literal [digits[.digits][(e|E)[sign]digits]] with at
    least one mantissa digit. The decimal value is rounded to the nearest
    binary64 value, ties to even; too large a value gives an infinity.
    Anything else raises [ValueError]. *)

Module PyFloat.

Import PyStr.

(** Nearest binary64 value to the positive rational [n / d]. *)
Definition round_ratio (n d : Z) : float :=
  let t0 := (Z.log2 n - Z.log2 d)%Z in
  (* t = floor (log2 (n / d)) *)
  let t := (if (0 <=? t0)%Z
            then (if (d * 2 ^ t0 <=? n)%Z then t0 else t0 - 1)
            else (if (d <=? n * 2 ^ (- t0))%Z then t0 else t0 - 1))%Z in
  (* exponent of the last mantissa bit; -1074 for subnormal values *)
  let k := Z.max (-1074) (t - 52) in
  let num := (if (0 <=? k)%Z then n else n * 2 ^ (- k))%Z in
  let den := (if (0 <=? k)%Z then d * 2 ^ k else d)%Z in
  let q := (num / den)%Z in
  let r := (num mod den)%Z in
  let q' := (if (2 * r <? den)%Z then q
             else if (den <? 2 * r)%Z then q + 1
             else if Z.even q then q else q + 1)%Z in
  if (1024 - 53 <? k)%Z then infinity
  else Z.ldexp (of_uint63 (Uint63.of_Z q')) k.

(** Nearest binary64 value to [m * 10 ^ e], for [0 <= m]. *)
Definition of_decimal (m e : Z) : float :=
  if (m =? 0)%Z then zero
  else if (0 <=? e)%Z then round_ratio (m * 10 ^ e) 1
  else round_ratio m (10 ^ (- e)).

(** Underscore rule of numeric literals: an underscore must follow a digit
    and precede a digit; the text without underscores is returned. [prev]
    is the previous character, if any. *)
Fixpoint drop_underscores (prev : option ascii) (s : string) : option string :=
  match s with
  | EmptyString =>
      match prev with
      | Some "_"%char => None
      | _ => Some EmptyString
      end
  | String c s' =>
      if Ascii.eqb c "_" then
        match prev with
        | Some p => if is_digit p then drop_underscores (Some c) s' else None
        | None => None
        end
      else
        match prev with
        | Some "_"%char =>
            if is_digit c
            then option_map (String c) (drop_underscores (Some c) s')
            else None
        | _ => option_map (String c) (drop_underscores (Some c) s')
        end
  end.

(** Leading digits of [s]: their value on top of [acc], how many there
    are, and the rest of the text. *)
Fixpoint digits (s : string) (acc : Z) (n : nat) : Z * nat * string :=
  match s with
  | String c s' =>
      if is_digit c then digits s' (10 * acc + digit_val c)%Z (S n)
      else (acc, n, s)
  | EmptyString => (acc, n, s)
  end.

(** Optional sign: [true] for a minus. *)
Definition sign (s : string) : bool * string :=
  match s with
  | String "-"%char s' => (true, s')
  | String "+"%char s' => (false, s')
  | _ => (false, s)
  end.

(** Exponent part [(e|E)[sign]digits]; the text must end with it. *)
Definition exponent (s : string) : option Z :=
  match s with
  | EmptyString => Some 0%Z
  | String c s' =>
      if Ascii.eqb (lower c) "e" then
        let '(neg, s1) := sign s' in
        match digits s1 0%Z 0 with
        | (_, O, _) => None
        | (v, S _, EmptyString) => Some (if neg then (- v)%Z else v)
        | (_, S _, String _ _) => None
        end
      else None
  end.

(** A decimal literal without sign: mantissa digits and power of ten. *)
Definition decimal (s : string) : option (Z * Z) :=
  let '(ip, ni, s1) := digits s 0%Z 0 in
  let '(m, nf, s2) :=
    match s1 with
    | String "."%char s1' => digits s1' ip 0
    | _ => (ip, 0, s1)
    end in
  match ni + nf with
  | O => None
  | S _ =>
      match exponent s2 with
      | Some e => Some (m, (e - Z.of_nat nf)%Z)
      | None => None
      end
  end.

(** [float(s)] *)
Definition of_string (s : string) : result float :=
  match drop_underscores None (strip_of is_c_space s) with
  | None => raise ValueError
  | Some s1 =>
      let '(neg, s2) := sign s1 in
      let signed (x : float) : float := if neg then (- x)%float else x in
      let w := lower_str s2 in
      if String.eqb w "inf" || String.eqb w "infinity" then ret (signed infinity)
      else if String.eqb w "nan" then ret (signed nan)
      else
        match decimal s2 with
        | Some (m, e) => ret (signed (of_decimal m e))
        | None => raise ValueError
        end
  end.

End PyFloat.

(** ** [repr(x)] of a float

    Python prints a float with the fewest significant digits that read
    back as the same binary64 value (the candidate nearest to the exact
    value when several have that length), in fixed notation when the
    decimal point position lies in (-4, 16] and in exponent notation
    otherwise. *)

Module PyRepr.

Definition of_pos (p : positive) : string :=
  DecimalString.NilEmpty.string_of_uint (Pos.to_uint p).

(** [str(n)] of an integer. *)
Definition of_Z (z : Z) : string :=
  match z with
  | Z0 => "0"
  | Zpos p => of_pos p
  | Zneg p => "-" ++ of_pos p
  end.

Definition of_nat (n : nat) : string := of_Z (Z.of_nat n).

Definition ndigits (z : Z) : Z := Z.of_nat (String.length (of_Z z)).

(** [n / d] at the scale [10 ^ s], as a fraction of integers. *)
Definition scaled (n d s : Z) : Z * Z :=
  if (0 <=? s)%Z then (n, d * 10 ^ s)%Z else (n * 10 ^ (- s), d)%Z.

(** floor (log10 (n / d)) for positive [n], [d]. *)
Definition floor_log10 (n d : Z) : Z :=
  let p0 := (ndigits n - ndigits d)%Z in
  let '(v, u) := scaled n d p0 in
  if (u <=? v)%Z then p0 else (p0 - 1)%Z.

(** The candidates with [ndig] significant digits around [n / d]: the
    nearest integer to [n / d / 10 ^ s] and its two neighbours, each with
    its distance to the exact value (in units of [1 / u]). *)
Definition candidates (n d s : Z) : list (Z * Z) :=
  let '(v, u) := scaled n d s in
  let c0 := ((2 * v + u) / (2 * u))%Z in
  map (fun c => (c, Z.abs (c * u - v))) [c0; (c0 - 1)%Z; (c0 + 1)%Z].

Definition closer (best : option (Z * Z)) (c : Z * Z) : option (Z * Z) :=
  match best with
  | None => Some c
  | Some b => if (snd c <? snd b)%Z then Some c else best
  end.

(** Shortest digits for the positive float [a = n / d]: the integer [c]
    and scale [s] with [a] the nearest binary64 value to [c * 10 ^ s]. *)
Fixpoint shortest (a : float) (n d p : Z) (ndig : Z) (fuel : nat) : Z * Z :=
  let s := (p - ndig + 1)%Z in
  let ok := filter (fun c => (0 <? fst c)%Z &&
                             PrimFloat.Leibniz.eqb (PyFloat.of_decimal (fst c) s) a)
                   (candidates n d s) in
  match fold_left closer ok None, fuel with
  | Some c, _ => (fst c, s)
  | None, S fuel' => shortest a n d p (ndig + 1) fuel'
  | None, O => (0%Z, s)
  end.

(** The digits without their trailing zeros. *)
Fixpoint rstrip_zeros (s : string) : string :=
  match s with
  | EmptyString => EmptyString
  | String c s' =>
      match rstrip_zeros s' with
      | EmptyString => if Ascii.eqb c "0" then EmptyString else String c EmptyString
      | r => String c r
      end
  end.

Fixpoint zeros (n : nat) : string :=
  match n with
  | O => ""
  | S n' => String "0" (zeros n')
  end.

(** Layout of the digits [ds] with the decimal point after [decpt]
    digits. *)
Definition layout (ds : string) (decpt : Z) : string :=
  let n := Z.of_nat (String.length ds) in
  if ((decpt <=? -4) || (16 <? decpt))%Z then
    let e := (decpt - 1)%Z in
    let mant := match ds with
                | String c EmptyString => String c EmptyString
                | String c rest => String c ("." ++ rest)
                | EmptyString => EmptyString
                end in
    let ea := of_Z (Z.abs e) in
    mant ++ "e" ++ (if (e <? 0)%Z then "-" else "+")
         ++ (if (Z.abs e <? 10)%Z then "0" ++ ea else ea)
  else if (decpt <=? 0)%Z then "0." ++ zeros (Z.to_nat (- decpt)) ++ ds
  else if (n <=? decpt)%Z then ds ++ zeros (Z.to_nat (decpt - n)) ++ ".0"
  else substring 0 (Z.to_nat decpt) ds ++ "."
       ++ substring (Z.to_nat decpt) (Z.to_nat (n - decpt)) ds.

(** [repr(f)], which is also [str(f)]. *)
Definition of_float (f : float) : string :=
  match Prim2SF f with
  | S754_nan => "nan"
  | S754_infinity s => if s then "-inf" else "inf"
  | S754_zero s => if s then "-0.0" else "0.0"
  | S754_finite sg m e =>
      let n := (if (0 <=? e)%Z then Zpos m * 2 ^ e else Zpos m)%Z in
      let d := (if (0 <=? e)%Z then 1 else 2 ^ (- e))%Z in
      let p := floor_log10 n d in
      let '(c, s) := shortest (abs f) n d p 1 16 in
      let all := of_Z c in
      let decpt := (Z.of_nat (String.length all) + s)%Z in
      (if sg then "-" else "") ++ layout (rstrip_zeros all) decpt
  end.

End PyRepr.

(** ** Values held by table cells *)

(** A cell read by [pd.read_csv], or any value handed to
    [parse_p_value]: [None], a float (NaN is the missing marker), an
    integer, a boolean or text. *)
Inductive pyval : Type :=
| PNone
| PFloat (f : float)
| PInt (z : Z)
| PBool (b : bool)
| PStr (s : string).

(** [np.nan] *)
Definition NaN : pyval := PFloat nan.

(** [pd.isna(v)] on a scalar. *)
Definition isna (v : pyval) : bool :=
  match v with
  | PNone => true
  | PFloat f => is_nan f
  | PInt _ | PBool _ | PStr _ => false
  end.

Definition notna (v : pyval) : bool := negb (isna v).

(** [str(v)] *)
Definition str (v : pyval) : string :=
  match v with
  | PNone => "None"
  | PFloat f => PyRepr.of_float f
  | PInt z => PyRepr.of_Z z
  | PBool b => if b then "True" else "False"
  | PStr s => s
  end.

(** [v == text] for a cell and a string literal. *)
Definition eq_str (v : pyval) (text : string) : bool :=
  match v with
  | PStr s => String.eqb s text
  | _ => false
  end.

#[local] Set Warnings "-inexact-float".

(** ** [parse_p_value] (lines 15-32) *)

Definition parse_p_value (p_val_str : pyval) : result float :=
  if isna p_val_str then ret nan
  else
    let p_str := PyStr.strip (str p_val_str) in
    (* Handle cases like "< 1e-30" *)
    let p_str := if PyStr.startswith "<" p_str
                 then PyStr.strip (PyStr.tail p_str) else p_str in
    match PyFloat.of_string p_str with
    | inr x => ret x
    | inl ValueError => ret nan      (* except ValueError *)
    | inl e => raise e
    end.

(** ** Input tables

    What [pd.read_csv] returns for one input file: the header and the
    rows. A row is read at the types of the method's schema: term
    identifiers are text or missing ([None] for an empty cell), p- and
    q-values are float64, gprofiler2's [significant] is a boolean or
    missing, and the remaining cells are carried as they are. A column
    whose name is not in the header is absent from the file: the
    corresponding field of the rows is then never read. *)

Record DataFrame (R : Type) : Type := {
  columns : list string;
  rows : list R
}.
Arguments columns {R} _.
Arguments rows {R} _.

(** [df[name]]: the column as a function of the row, [KeyError] when the
    frame has no such column. *)
Definition getitem {R A : Type} (df : DataFrame R) (name : string)
    (field : R -> A) : result (R -> A) :=
  if in_dec string_dec name (columns df) then ret field
  else raise (KeyError name).

(** Rows of [clusterProfiler_enrichment_results.csv]. *)
Module CP.
Record record : Type := {
  ID : option string;
  Description : pyval;
  pvalue : float;
  qvalue : float;
  p_adjust : pyval;          (* column "p.adjust" *)
  FoldEnrichment : pyval;
  Count : pyval;
  GeneRatio : pyval;
  geneID : pyval
}.
End CP.

(** Rows of [gprofiler2_enrichment_results.csv]. *)
Module GP.
Record record : Type := {
  source : pyval;
  term_id : option string;
  term_name : pyval;
  p_value : float;
  significant : option bool;
  term_size : pyval;
  intersection_size : pyval;
  precision : pyval;
  recall : pyval
}.
End GP.

(** Rows of [topGO_enrichment_results.csv]. *)
Module TG.
Record record : Type := {
  GO_ID : option string;     (* column "GO.ID" *)
  Term : pyval;
  fisher : pyval;
  Annotated : pyval;
  Significant : pyval;
  Expected : pyval
}.
End TG.

(** ** Standardised per-method tables (the loaders' results) *)

Module CpResults.
Record row : Type := {
  term_id : option string;
  term_name : pyval;
  clusterprofiler_pvalue : float;
  clusterprofiler_qvalue : float;
  clusterprofiler_p_adjust : pyval;
  clusterprofiler_fold_enrichment : pyval;
  clusterprofiler_gene_count : pyval;
  clusterprofiler_gene_ratio : pyval;
  clusterprofiler_genes : pyval;
  clusterprofiler_significant : bool
}.
End CpResults.

Module GpResults.
Record row : Type := {
  term_id : option string;
  term_name : pyval;
  gprofiler2_pvalue : float;
  gprofiler2_significant : option bool;
  gprofiler2_term_size : pyval;
  gprofiler2_intersection_size : pyval;
  gprofiler2_precision : pyval;
  gprofiler2_recall : pyval
}.
End GpResults.

Module TgResults.
Record row : Type := {
  term_id : option string;
  term_name : pyval;
  topgo_pvalue_raw : pyval;
  topgo_annotated : pyval;
  topgo_significant : pyval;
  topgo_expected : pyval;
  topgo_pvalue : float;
  topgo_significant_flag : bool
}.
End TgResults.

(** ** The loaders *)

(** [load_clusterprofiler_results] (lines 34-54); [df] is the frame read
    from [file_path]. *)
Definition load_clusterprofiler_results (df : DataFrame CP.record)
  : result (list CpResults.row) :=
  ID <- getitem df "ID" CP.ID ;;
  Description <- getitem df "Description" CP.Description ;;
  pvalue <- getitem df "pvalue" CP.pvalue ;;
  qvalue <- getitem df "qvalue" CP.qvalue ;;
  p_adjust <- getitem df "p.adjust" CP.p_adjust ;;
  FoldEnrichment <- getitem df "FoldEnrichment" CP.FoldEnrichment ;;
  Count <- getitem df "Count" CP.Count ;;
  GeneRatio <- getitem df "GeneRatio" CP.GeneRatio ;;
  geneID <- getitem df "geneID" CP.geneID ;;
  ret (map (fun r =>
         {| CpResults.term_id := ID r;
            CpResults.term_name := Description r;
            CpResults.clusterprofiler_pvalue := pvalue r;
            CpResults.clusterprofiler_qvalue := qvalue r;
            CpResults.clusterprofiler_p_adjust := p_adjust r;
            CpResults.clusterprofiler_fold_enrichment := FoldEnrichment r;
            CpResults.clusterprofiler_gene_count := Count r;
            CpResults.clusterprofiler_gene_ratio := GeneRatio r;
            CpResults.clusterprofiler_genes := geneID r;
            (* Add significance flag (typically q-value < 0.05) *)
            CpResults.clusterprofiler_significant := (qvalue r <? 0.05)%float |})
       (rows df)).

(** [load_gprofiler2_results] (lines 56-74). *)
Definition load_gprofiler2_results (df : DataFrame GP.record)
  : result (list GpResults.row) :=
  source <- getitem df "source" GP.source ;;
  (* Filter for GO terms only *)
  let df := {| columns := columns df;
               rows := filter (fun r => eq_str (source r) "GO:BP") (rows df) |} in
  term_id <- getitem df "term_id" GP.term_id ;;
  term_name <- getitem df "term_name" GP.term_name ;;
  p_value <- getitem df "p_value" GP.p_value ;;
  significant <- getitem df "significant" GP.significant ;;
  term_size <- getitem df "term_size" GP.term_size ;;
  intersection_size <- getitem df "intersection_size" GP.intersection_size ;;
  precision <- getitem df "precision" GP.precision ;;
  recall <- getitem df "recall" GP.recall ;;
  ret (map (fun r =>
         {| GpResults.term_id := term_id r;
            GpResults.term_name := term_name r;
            GpResults.gprofiler2_pvalue := p_value r;
            GpResults.gprofiler2_significant := significant r;
            GpResults.gprofiler2_term_size := term_size r;
            GpResults.gprofiler2_intersection_size := intersection_size r;
            GpResults.gprofiler2_precision := precision r;
            GpResults.gprofiler2_recall := recall r |})
       (rows df)).

(** [Series.apply(f)] with a function that may raise. *)
Fixpoint Series_apply {A B : Type} (f : A -> result B) (l : list A) : result (list B) :=
  match l with
  | [] => ret []
  | a :: l' => b <- f a ;; bs <- Series_apply f l' ;; ret (b :: bs)
  end.

(** [load_topgo_results] (lines 76-95). *)
Definition load_topgo_results (df : DataFrame TG.record)
  : result (list TgResults.row) :=
  GO_ID <- getitem df "GO.ID" TG.GO_ID ;;
  Term <- getitem df "Term" TG.Term ;;
  fisher <- getitem df "fisher" TG.fisher ;;
  Annotated <- getitem df "Annotated" TG.Annotated ;;
  Significant <- getitem df "Significant" TG.Significant ;;
  Expected <- getitem df "Expected" TG.Expected ;;
  Series_apply (fun r =>
         (* Parse p-values (handle "< 1e-30" format) *)
         topgo_pvalue <- parse_p_value (fisher r) ;;
         ret {| TgResults.term_id := GO_ID r;
                TgResults.term_name := Term r;
                TgResults.topgo_pvalue_raw := fisher r;
                TgResults.topgo_annotated := Annotated r;
                TgResults.topgo_significant := Significant r;
                TgResults.topgo_expected := Expected r;
                TgResults.topgo_pvalue := topgo_pvalue;
                (* Add significance flag (typically p-value < 0.05) *)
                TgResults.topgo_significant_flag := (topgo_pvalue <? 0.05)%float |})
       (rows df).

(** ** Python sets of term identifiers

    [all_terms] is a Python [set] of strings, and [list(all_terms)] lists
    it in the set's iteration order. That order is fixed by the hashes of
    the strings, which CPython salts per process, so the program has no
    control over it: it is a parameter here. [set_list l] is the list made
    from the set to which the elements of [l] were added in turn; it holds
    every distinct element of [l] once. *)

Class SetOrder : Type := {
  set_list : list string -> list string;
  set_list_perm : forall l, Permutation (set_list l) (nodup string_dec l)
}.

(** [Series.dropna()] on a column of identifiers. *)
Fixpoint dropna (l : list (option string)) : list string :=
  match l with
  | [] => []
  | Some s :: l' => s :: dropna l'
  | None :: l' => dropna l'
  end.

(** ** The merged table [master_df]

    One row of [master_df] after the three left joins: the key and, per
    method, the matching row of that method's table, or nothing. The
    columns of an unmatched method are all missing. *)

Module MasterDf.

Record row : Type := {
  term_id : string;
  cp : option CpResults.row;
  gp : option GpResults.row;
  tg : option TgResults.row
}.

Definition cell {R : Type} (o : option R) (col : R -> pyval) : pyval :=
  match o with Some r => col r | None => NaN end.

Definition num {R : Type} (o : option R) (col : R -> float) : float :=
  match o with Some r => col r | None => nan end.

(* name columns: [term_name] comes from clusterProfiler, the two later
   joins add theirs under the suffixes [_gp] and [_tg] *)
Definition term_name (m : row) := cell (cp m) CpResults.term_name.
Definition term_name_gp (m : row) := cell (gp m) GpResults.term_name.
Definition term_name_tg (m : row) := cell (tg m) TgResults.term_name.

Definition clusterprofiler_pvalue (m : row) := num (cp m) CpResults.clusterprofiler_pvalue.
Definition clusterprofiler_qvalue (m : row) := num (cp m) CpResults.clusterprofiler_qvalue.
Definition clusterprofiler_p_adjust (m : row) := cell (cp m) CpResults.clusterprofiler_p_adjust.
Definition clusterprofiler_fold_enrichment (m : row) :=
  cell (cp m) CpResults.clusterprofiler_fold_enrichment.
Definition clusterprofiler_gene_count (m : row) :=
  cell (cp m) CpResults.clusterprofiler_gene_count.
Definition clusterprofiler_genes (m : row) := cell (cp m) CpResults.clusterprofiler_genes.
Definition clusterprofiler_significant (m : row) : option bool :=
  option_map CpResults.clusterprofiler_significant (cp m).

Definition gprofiler2_pvalue (m : row) := num (gp m) GpResults.gprofiler2_pvalue.
Definition gprofiler2_significant (m : row) : option bool :=
  match gp m with Some r => GpResults.gprofiler2_significant r | None => None end.
Definition gprofiler2_term_size (m : row) := cell (gp m) GpResults.gprofiler2_term_size.
Definition gprofiler2_intersection_size (m : row) :=
  cell (gp m) GpResults.gprofiler2_intersection_size.
Definition gprofiler2_precision (m : row) := cell (gp m) GpResults.gprofiler2_precision.
Definition gprofiler2_recall (m : row) := cell (gp m) GpResults.gprofiler2_recall.

Definition topgo_pvalue (m : row) := num (tg m) TgResults.topgo_pvalue.
Definition topgo_pvalue_raw (m : row) := cell (tg m) TgResults.topgo_pvalue_raw.
Definition topgo_significant_flag (m : row) : option bool :=
  option_map TgResults.topgo_significant_flag (tg m).
Definition topgo_annotated (m : row) := cell (tg m) TgResults.topgo_annotated.
Definition topgo_significant (m : row) := cell (tg m) TgResults.topgo_significant.
Definition topgo_expected (m : row) := cell (tg m) TgResults.topgo_expected.

(** [pd.DataFrame({'term_id': list(all_terms)})] *)
Definition of_terms (terms : list string) : list row :=
  map (fun t => {| term_id := t; cp := None; gp := None; tg := None |}) terms.

Definition with_cp (m : row) (o : option CpResults.row) : row :=
  {| term_id := term_id m; cp := o; gp := gp m; tg := tg m |}.
Definition with_gp (m : row) (o : option GpResults.row) : row :=
  {| term_id := term_id m; cp := cp m; gp := o; tg := tg m |}.
Definition with_tg (m : row) (o : option TgResults.row) : row :=
  {| term_id := term_id m; cp := cp m; gp := gp m; tg := o |}.

Definition key_is (t : string) (k : option string) : bool :=
  match k with Some s => String.eqb s t | None => false end.

(** [left.merge(right, on='term_id', how='left')]: the rows of [left] in
    their order, each once per row of [right] with the same key (in the
    order of [right]), or once without a partner when there is none. *)
Definition merge {R : Type} (key : R -> option string)
    (attach : row -> option R -> row) (left : list row) (right : list R)
  : list row :=
  flat_map (fun m =>
      match filter (fun r => key_is (term_id m) (key r)) right with
      | [] => [attach m None]
      | matches => map (fun r => attach m (Some r)) matches
      end) left.

End MasterDf.

(** ** The returned table [result_df] *)

Module ResultDf.

Record row : Type := {
  term_id : string;
  term_name : pyval;
  methods_significant : nat;
  methods_total : nat;
  clusterprofiler_pvalue : float;
  clusterprofiler_qvalue : float;
  clusterprofiler_p_adjust : pyval;
  clusterprofiler_fold_enrichment : pyval;
  clusterprofiler_gene_count : pyval;
  clusterprofiler_significant : option bool;
  gprofiler2_pvalue : float;
  gprofiler2_significant : option bool;
  gprofiler2_term_size : pyval;
  gprofiler2_intersection_size : pyval;
  gprofiler2_precision : pyval;
  gprofiler2_recall : pyval;
  topgo_pvalue : float;
  topgo_pvalue_raw : pyval;
  topgo_significant_flag : option bool;
  topgo_annotated : pyval;
  topgo_significant : pyval;
  topgo_expected : pyval;
  clusterprofiler_gene_ids : pyval
}.

(** Minimum of two floats that skips NaN. *)
Definition nanmin (a b : float) : float :=
  if is_nan a then b
  else if is_nan b then a
  else if (b <? a)%float then b else a.

(** [result_df[[...three p-value columns...]].min(axis=1)]: the smallest
    p-value of the row that is not missing, NaN when all three are. *)
Definition min_pvalue (r : row) : float :=
  nanmin (nanmin (clusterprofiler_pvalue r) (gprofiler2_pvalue r)) (topgo_pvalue r).

(** Ascending order on a float column with missing values last. *)
Definition na_last_le (a b : float) : bool :=
  if is_nan b then true
  else if is_nan a then false
  else (a <=? b)%float.

(** The order of
    [sort_values(['methods_significant', 'methods_total', 'min_pvalue'],
                 ascending=[False, False, True])]:
    [precedes a b] when the key of [a] is not after the key of [b]. *)
Definition precedes (a b : row) : bool :=
  if (methods_significant b <? methods_significant a)%nat then true
  else if (methods_significant a <? methods_significant b)%nat then false
  else if (methods_total b <? methods_total a)%nat then true
  else if (methods_total a <? methods_total b)%nat then false
  else na_last_le (min_pvalue a) (min_pvalue b).

Fixpoint insert (x : row) (l : list row) : list row :=
  match l with
  | [] => [x]
  | y :: l' => if precedes x y then x :: l else y :: insert x l'
  end.

(** [sort_values] on several keys is a stable sort: rows with equal keys
    keep their relative order. *)
Definition sort_values (l : list row) : list row := fold_right insert [] l.

End ResultDf.

(** ** [create_comparison_table] (lines 97-187) *)

(** What a call leaves behind: the lines it printed and how it ended. *)
Record run (A : Type) : Type := {
  printed : list string;
  outcome : result A
}.
Arguments printed {A} _.
Arguments outcome {A} _.

(** An f-string: its pieces put together. *)
Definition fstr (pieces : list string) : string := String.concat "" pieces.

Section Program.

Context {order : SetOrder}.

(** Resolve term names (use the first non-null name found). *)
Definition get_best_term_name (row : MasterDf.row) : pyval :=
  match find notna [MasterDf.term_name row;
                    MasterDf.term_name_gp row;
                    MasterDf.term_name_tg row] with
  | Some name => name
  | None => PStr "Unknown"
  end.

(** [(~column.isna()).astype(int)] on one cell. *)
Definition reported (pvalue : float) : nat := Nat.b2n (negb (is_nan pvalue)).

(** Methods that included this term in analysis (lines 139-143). *)
Definition methods_total (m : MasterDf.row) : nat :=
  reported (MasterDf.clusterprofiler_pvalue m) +
  reported (MasterDf.gprofiler2_pvalue m) +
  reported (MasterDf.topgo_pvalue m).

(** [column.fillna(False)] on one cell of a flag column. *)
Definition fillna_False (flag : option bool) : bool :=
  match flag with Some b => b | None => false end.

(** Methods that found this term significantly enriched (lines 146-154). *)
Definition methods_significant (m : MasterDf.row) : nat :=
  let cp_sig := fillna_False (MasterDf.clusterprofiler_significant m) in
  let gp_sig := fillna_False (MasterDf.gprofiler2_significant m) in
  let tg_sig := fillna_False (MasterDf.topgo_significant_flag m) in
  Nat.b2n cp_sig + Nat.b2n gp_sig + Nat.b2n tg_sig.

(** The columns of [final_columns], in that order, with the two renamings
    (lines 157-177). Every listed column exists in [master_df]. *)
Definition result_row (m : MasterDf.row) : ResultDf.row :=
  {| ResultDf.term_id := MasterDf.term_id m;
     ResultDf.term_name := get_best_term_name m;
     ResultDf.methods_significant := methods_significant m;
     ResultDf.methods_total := methods_total m;
     ResultDf.clusterprofiler_pvalue := MasterDf.clusterprofiler_pvalue m;
     ResultDf.clusterprofiler_qvalue := MasterDf.clusterprofiler_qvalue m;
     ResultDf.clusterprofiler_p_adjust := MasterDf.clusterprofiler_p_adjust m;
     ResultDf.clusterprofiler_fold_enrichment := MasterDf.clusterprofiler_fold_enrichment m;
     ResultDf.clusterprofiler_gene_count := MasterDf.clusterprofiler_gene_count m;
     ResultDf.clusterprofiler_significant := MasterDf.clusterprofiler_significant m;
     ResultDf.gprofiler2_pvalue := MasterDf.gprofiler2_pvalue m;
     ResultDf.gprofiler2_significant := MasterDf.gprofiler2_significant m;
     ResultDf.gprofiler2_term_size := MasterDf.gprofiler2_term_size m;
     ResultDf.gprofiler2_intersection_size := MasterDf.gprofiler2_intersection_size m;
     ResultDf.gprofiler2_precision := MasterDf.gprofiler2_precision m;
     ResultDf.gprofiler2_recall := MasterDf.gprofiler2_recall m;
     ResultDf.topgo_pvalue := MasterDf.topgo_pvalue m;
     ResultDf.topgo_pvalue_raw := MasterDf.topgo_pvalue_raw m;
     ResultDf.topgo_significant_flag := MasterDf.topgo_significant_flag m;
     ResultDf.topgo_annotated := MasterDf.topgo_annotated m;
     ResultDf.topgo_significant := MasterDf.topgo_significant m;
     ResultDf.topgo_expected := MasterDf.topgo_expected m;
     ResultDf.clusterprofiler_gene_ids := MasterDf.clusterprofiler_genes m |}.

(** Get all unique terms across all methods (lines 112-116). *)
Definition all_terms (cp_results : list CpResults.row)
    (gp_results : list GpResults.row) (tg_results : list TgResults.row)
  : list string :=
  set_list (dropna (map CpResults.term_id cp_results)
            ++ dropna (map GpResults.term_id gp_results)
            ++ dropna (map TgResults.term_id tg_results)).

(** The three left joins (lines 121-126). *)
Definition merged (cp_results : list CpResults.row)
    (gp_results : list GpResults.row) (tg_results : list TgResults.row)
  : list MasterDf.row :=
  let master_df := MasterDf.of_terms (all_terms cp_results gp_results tg_results) in
  let master_df := MasterDf.merge CpResults.term_id MasterDf.with_cp master_df cp_results in
  let master_df := MasterDf.merge GpResults.term_id MasterDf.with_gp master_df gp_results in
  MasterDf.merge TgResults.term_id MasterDf.with_tg master_df tg_results.

(** Lines 112-187: the table built from the three standardised tables. *)
Definition comparison_table (cp_results : list CpResults.row)
    (gp_results : list GpResults.row) (tg_results : list TgResults.row)
  : list ResultDf.row :=
  ResultDf.sort_values (map result_row (merged cp_results gp_results tg_results)).

Definition create_comparison_table
    (clusterprofiler_file : DataFrame CP.record)
    (gprofiler2_file : DataFrame GP.record)
    (topgo_file : DataFrame TG.record)
    (significance_threshold : float)
  : run (list ResultDf.row) :=
  let loading := ["Loading results from each method..."] in
  match (cp_results <- load_clusterprofiler_results clusterprofiler_file ;;
         gp_results <- load_gprofiler2_results gprofiler2_file ;;
         tg_results <- load_topgo_results topgo_file ;;
         ret (cp_results, gp_results, tg_results)) with
  | inl e => {| printed := loading; outcome := raise e |}
  | inr (cp_results, gp_results, tg_results) =>
      {| printed := loading ++
           [fstr ["Loaded "; PyRepr.of_nat (List.length cp_results); " clusterProfiler results"];
            fstr ["Loaded "; PyRepr.of_nat (List.length gp_results); " gprofiler2 results"];
            fstr ["Loaded "; PyRepr.of_nat (List.length tg_results); " topGO results"];
            fstr ["Found ";
                  PyRepr.of_nat (List.length (all_terms cp_results gp_results tg_results));
                  " unique terms across all methods"]];
         outcome := ret (comparison_table cp_results gp_results tg_results) |}
  end.

(** ** [main] (lines 189-276) *)

(** The results directory: the three input files, each present with its
    parsed content or absent, and the output file. *)
Record directory : Type := {
  clusterProfiler_enrichment_results_csv : option (DataFrame CP.record);
  gprofiler2_enrichment_results_csv : option (DataFrame GP.record);
  topGO_enrichment_results_csv : option (DataFrame TG.record);
  enrichment_methods_comparison_table_csv : option (list ResultDf.row)
}.

(** [comparison_df.to_csv(output_file, index=False)] *)
Definition to_csv (comparison_df : list ResultDf.row) (d : directory) : directory :=
  {| clusterProfiler_enrichment_results_csv := clusterProfiler_enrichment_results_csv d;
     gprofiler2_enrichment_results_csv := gprofiler2_enrichment_results_csv d;
     topGO_enrichment_results_csv := topGO_enrichment_results_csv d;
     enrichment_methods_comparison_table_csv := Some comparison_df |}.

(** [results_dir / name] as text. *)
Definition joinpath (results_dir name : string) : string :=
  fstr [results_dir; "/"; name].

Definition newline : string := String (ascii_of_nat 10) EmptyString.

Fixpoint repeat_str (s : string) (n : nat) : string :=
  match n with
  | O => ""
  | S n' => s ++ repeat_str s n'
  end.

(** ["=" * 60] *)
Definition rule : string := repeat_str "=" 60.

(** [df[cols].to_string(index=False)], pandas' rendering of a table as
    text. *)
Variable to_string : list string -> list ResultDf.row -> string.

Definition count (p : ResultDf.row -> bool) (df : list ResultDf.row) : string :=
  PyRepr.of_nat (List.length (filter p df)).

Definition is_True (flag : option bool) : bool :=
  match flag with Some true => true | _ => false end.

(** One block of "method-specific" results (lines 256-272). *)
Definition specific (title : string) (flag : ResultDf.row -> option bool)
    (pvalue_column : string) (comparison_df : list ResultDf.row) : list string :=
  let only := filter (fun r => is_True (flag r) &&
                               (ResultDf.methods_significant r =? 1)%nat)
                     comparison_df in
  match only with
  | [] => []
  | _ => [fstr [newline; title; "-specific (top 5):"];
          to_string ["term_id"; "term_name"; pvalue_column] (firstn 5 only)]
  end.

(** The console report printed once the table is saved (lines 220-276). *)
Definition report (output_file : string) (comparison_df : list ResultDf.row)
  : list string :=
  let total n := fun r => (ResultDf.methods_total r =? n)%nat in
  let signif n := fun r => (ResultDf.methods_significant r =? n)%nat in
  let consensus_results :=
    firstn 10 (filter (fun r => (2 <=? ResultDf.methods_significant r)%nat)
                      comparison_df) in
  [fstr [newline; "Comparison table saved to: "; output_file];
   fstr ["Total terms in comparison table: "; PyRepr.of_nat (List.length comparison_df)];
   fstr [newline; rule];
   "SUMMARY STATISTICS";
   rule;
   fstr ["Terms found by all 3 methods: "; count (total 3) comparison_df];
   fstr ["Terms found by 2 methods: "; count (total 2) comparison_df];
   fstr ["Terms found by 1 method: "; count (total 1) comparison_df];
   fstr [newline; "Terms significant in all 3 methods: "; count (signif 3) comparison_df];
   fstr ["Terms significant in 2 methods: "; count (signif 2) comparison_df];
   fstr ["Terms significant in 1 method: "; count (signif 1) comparison_df];
   fstr ["Terms not significant in any method: "; count (signif 0) comparison_df];
   fstr [newline; rule];
   "TOP 10 CONSENSUS RESULTS (significant in multiple methods)";
   rule;
   match consensus_results with
   | [] => "No terms found significant in multiple methods"
   | _ => to_string ["term_id"; "term_name"; "methods_significant"; "methods_total";
                     "clusterprofiler_pvalue"; "gprofiler2_pvalue"; "topgo_pvalue"]
                    consensus_results
   end;
   fstr [newline; rule];
   "METHOD-SPECIFIC SIGNIFICANT RESULTS (top 5 each)";
   rule]
  ++ specific "clusterProfiler" ResultDf.clusterprofiler_significant
              "clusterprofiler_pvalue" comparison_df
  ++ specific "gprofiler2" ResultDf.gprofiler2_significant
              "gprofiler2_pvalue" comparison_df
  ++ specific "topGO" ResultDf.topgo_significant_flag
              "topgo_pvalue" comparison_df
  ++ [fstr [newline; rule];
      "Analysis complete! Check the output file for the full comparison table.";
      rule].

(** The early exit of the existence check (lines 201-204). *)
Definition file_not_found (file_path : string) (d : directory)
  : run unit * directory :=
  ({| printed := [fstr ["Error: File not found - "; file_path]]; outcome := ret tt |}, d).

(** [main()], run on the results directory [d] located at [results_dir]:
    what it printed, how it ended, and the directory afterwards. *)
Definition main (results_dir : string) (d : directory) : run unit * directory :=
  let clusterprofiler_file := joinpath results_dir "clusterProfiler_enrichment_results.csv" in
  let gprofiler2_file := joinpath results_dir "gprofiler2_enrichment_results.csv" in
  let topgo_file := joinpath results_dir "topGO_enrichment_results.csv" in
  (* Check if all files exist *)
  match clusterProfiler_enrichment_results_csv d with
  | None => file_not_found clusterprofiler_file d
  | Some cp_csv =>
  match gprofiler2_enrichment_results_csv d with
  | None => file_not_found gprofiler2_file d
  | Some gp_csv =>
  match topGO_enrichment_results_csv d with
  | None => file_not_found topgo_file d
  | Some tg_csv =>
      let banner := ["Creating comprehensive enrichment comparison table..."; rule] in
      let call := create_comparison_table cp_csv gp_csv tg_csv 0.05%float in
      match outcome call with
      | inl e => ({| printed := banner ++ printed call; outcome := raise e |}, d)
      | inr comparison_df =>
          (* Save results *)
          let output_file := joinpath results_dir "enrichment_methods_comparison_table.csv" in
          ({| printed := banner ++ printed call ++ report output_file comparison_df;
              outcome := ret tt |},
           to_csv comparison_df d)
      end
  end end end.

End Program.

(** ** Two iteration orders

    The order in which the elements were first added, and its reverse:
    both list every distinct element once. *)

Definition insertion_order : SetOrder.
Proof.
  refine {| set_list := fun l => nodup string_dec l |}.
  intro l. apply Permutation_refl.
Defined.

Definition reverse_order : SetOrder.
Proof.
  refine {| set_list := fun l => rev (nodup string_dec l) |}.
  intro l. apply Permutation_sym, Permutation_rev.
Defined.

(** * Vocabulary of the properties *)

(** Text made only of characters that satisfy [sp]. *)
Fixpoint all_of (sp : ascii -> bool) (s : string) : bool :=
  match s with
  | EmptyString => true
  | String c s' => sp c && all_of sp s'
  end.

(** Text made of whitespace only. *)
Definition all_space (s : string) : bool := all_of PyStr.isspace s.

(** The float a text stands for, NaN when it is not a float literal. *)
Definition float_or_nan (text : string) : float :=
  match PyFloat.of_string text with
  | inr x => x
  | inl _ => nan
  end.

(** ** The order of binary64 values as a rank

    Every float that is not NaN has a rank in triples of integers; the
    lexicographic order of the ranks is the order of the floats. *)

Module FloatOrder.

Local Open Scope Z_scope.

Definition rank (x : spec_float) : Z * Z * Z :=
  match x with
  | S754_nan => (3, 0, 0)
  | S754_infinity true => (-2, 0, 0)
  | S754_infinity false => (2, 0, 0)
  | S754_zero _ => (0, 0, 0)
  | S754_finite true m e => (-1, - e, - Zpos m)
  | S754_finite false m e => (1, e, Zpos m)
  end.

Definition lex_le (p q : Z * Z * Z) : Prop :=
  let '(a, b, c) := p in
  let '(a', b', c') := q in
  a < a' \/ (a = a' /\ (b < b' \/ (b = b' /\ c <= c'))).

Definition lex_lt (p q : Z * Z * Z) : Prop :=
  let '(a, b, c) := p in
  let '(a', b', c') := q in
  a < a' \/ (a = a' /\ (b < b' \/ (b = b' /\ c < c'))).

End FloatOrder.

(** The sort order, key by key. *)
Definition key_le (a b : ResultDf.row) : Prop :=
  ResultDf.methods_significant b < ResultDf.methods_significant a \/
  (ResultDf.methods_significant a = ResultDf.methods_significant b /\
   (ResultDf.methods_total b < ResultDf.methods_total a \/
    (ResultDf.methods_total a = ResultDf.methods_total b /\
     ResultDf.na_last_le (ResultDf.min_pvalue a) (ResultDf.min_pvalue b) = true))).

(** [a] is not after [b] in the sort order. *)
Definition before (a b : ResultDf.row) : Prop := ResultDf.precedes a b = true.

(** The number of the three standardised tables that hold a row for the
    term [t]. *)
Definition methods_reporting (cp : list CpResults.row) (gp : list GpResults.row)
    (tg : list TgResults.row) (t : string) : nat :=
  Nat.b2n (existsb (fun r => MasterDf.key_is t (CpResults.term_id r)) cp) +
  Nat.b2n (existsb (fun r => MasterDf.key_is t (GpResults.term_id r)) gp) +
  Nat.b2n (existsb (fun r => MasterDf.key_is t (TgResults.term_id r)) tg).

(** [m] is the minimum of the values of [ps] that are not missing: NaN
    when all are missing, otherwise one of them, not missing and at most
    every other one that is not missing. *)
Definition is_min_of (m : float) (ps : list float) : Prop :=
  (is_nan m = true /\ Forall (fun p => is_nan p = true) ps) \/
  (is_nan m = false /\ In m ps /\
   Forall (fun p => is_nan p = true \/ (m <=? p)%float = true) ps).

(** The three p-value cells of a row. *)
Definition pvalues (r : ResultDf.row) : list float :=
  [ResultDf.clusterprofiler_pvalue r; ResultDf.gprofiler2_pvalue r;
   ResultDf.topgo_pvalue r].

(** [a] and [b] tie on the three sort keys: equal counts, and smallest
    p-values that are both missing or compare equal. *)
Definition same_keys (a b : ResultDf.row) : Prop :=
  ResultDf.methods_significant a = ResultDf.methods_significant b /\
  ResultDf.methods_total a = ResultDf.methods_total b /\
  let ma := ResultDf.min_pvalue a in
  let mb := ResultDf.min_pvalue b in
  (is_nan ma = true /\ is_nan mb = true) \/
  (is_nan ma = false /\ is_nan mb = false /\
   (ma <=? mb)%float = true /\ (mb <=? ma)%float = true).

(** The columns each loader reads, in the order it reads them. *)
Definition cp_required : list string :=
  ["ID"; "Description"; "pvalue"; "qvalue"; "p.adjust"; "FoldEnrichment";
   "Count"; "GeneRatio"; "geneID"].

Definition gp_required : list string :=
  ["source"; "term_id"; "term_name"; "p_value"; "significant"; "term_size";
   "intersection_size"; "precision"; "recall"].

Definition tg_required : list string :=
  ["GO.ID"; "Term"; "fisher"; "Annotated"; "Significant"; "Expected"].

(** The header lacks a required column. *)
Definition lacks (required header : list string) : Prop :=
  exists c, In c required /\ ~ In c header.

(** The first required column that the header does not have. *)
Definition first_missing (required header : list string) : option string :=
  find (fun c => if in_dec string_dec c header then false else true) required.

(** The paths of the input files that are absent from the directory, in
    the order in which [main] checks them. *)
Definition missing_paths (results_dir : string) (d : directory) : list string :=
  (match clusterProfiler_enrichment_results_csv d with
   | None => [(results_dir ++ "/clusterProfiler_enrichment_results.csv")%string]
   | Some _ => []
   end) ++
  (match gprofiler2_enrichment_results_csv d with
   | None => [(results_dir ++ "/gprofiler2_enrichment_results.csv")%string]
   | Some _ => []
   end) ++
  (match topGO_enrichment_results_csv d with
   | None => [(results_dir ++ "/topGO_enrichment_results.csv")%string]
   | Some _ => []
   end).

(** ** Cells of one method in a row of the table *)













(** ** Rows of the files and rows of the standardised tables *)

(** [c] is the standardised form of the row [r] of clusterProfiler's
    file. *)
Definition cp_row_of (r : CP.record) (c : CpResults.row) : Prop :=
  CpResults.term_id c = CP.ID r /\
  CpResults.term_name c = CP.Description r /\
  CpResults.clusterprofiler_pvalue c = CP.pvalue r /\
  CpResults.clusterprofiler_qvalue c = CP.qvalue r /\
  CpResults.clusterprofiler_p_adjust c = CP.p_adjust r /\
  CpResults.clusterprofiler_fold_enrichment c = CP.FoldEnrichment r /\
  CpResults.clusterprofiler_gene_count c = CP.Count r /\
  CpResults.clusterprofiler_gene_ratio c = CP.GeneRatio r /\
  CpResults.clusterprofiler_genes c = CP.geneID r /\
  CpResults.clusterprofiler_significant c = (CP.qvalue r <? 0.05)%float.

(** [g] is the standardised form of the row [r] of gprofiler2's file. *)
Definition gp_row_of (r : GP.record) (g : GpResults.row) : Prop :=
  GpResults.term_id g = GP.term_id r /\
  GpResults.term_name g = GP.term_name r /\
  GpResults.gprofiler2_pvalue g = GP.p_value r /\
  GpResults.gprofiler2_significant g = GP.significant r /\
  GpResults.gprofiler2_term_size g = GP.term_size r /\
  GpResults.gprofiler2_intersection_size g = GP.intersection_size r /\
  GpResults.gprofiler2_precision g = GP.precision r /\
  GpResults.gprofiler2_recall g = GP.recall r.

(** [t] is the standardised form of the row [r] of topGO's file: its
    p-value is what [parse_p_value] makes of the [fisher] cell. *)
Definition tg_row_of (r : TG.record) (t : TgResults.row) : Prop :=
  TgResults.term_id t = TG.GO_ID r /\
  TgResults.term_name t = TG.Term r /\
  TgResults.topgo_pvalue_raw t = TG.fisher r /\
  TgResults.topgo_annotated t = TG.Annotated r /\
  TgResults.topgo_significant t = TG.Significant r /\
  TgResults.topgo_expected t = TG.Expected r /\
  parse_p_value (TG.fisher r) = inr (TgResults.topgo_pvalue t) /\
  TgResults.topgo_significant_flag t = (TgResults.topgo_pvalue t <? 0.05)%float.

(** The rows of gprofiler2's file whose [source] is ["GO:BP"]. *)
Definition go_bp_rows (df : DataFrame GP.record) : list GP.record :=
  filter (fun r => eq_str (GP.source r) "GO:BP") (rows df).

(** The non-missing term identifiers of the three loaded tables, in the
    order in which they are added to [all_terms]. *)
Definition reported_terms (cp : list CpResults.row) (gp : list GpResults.row)
    (tg : list TgResults.row) : list string :=
  dropna (map CpResults.term_id cp) ++ dropna (map GpResults.term_id gp)
  ++ dropna (map TgResults.term_id tg).

(** The rows [a] and [b] have equal sort keys. *)
Definition tied (a b : ResultDf.row) : bool :=
  ResultDf.precedes a b && ResultDf.precedes b a.

(** The three input files of a directory, untouched by [main]. *)
Definition inputs (d : directory) :=
  (clusterProfiler_enrichment_results_csv d,
   gprofiler2_enrichment_results_csv d,
   topGO_enrichment_results_csv d).



(** * Sample inputs *)

Module Examples.

Definition cp_columns : list string :=
  ["ID"; "Description"; "GeneRatio"; "BgRatio"; "pvalue"; "p.adjust"; "qvalue";
   "geneID"; "Count"; "FoldEnrichment"].

Definition cp_record (id : string) (name : string) (p q : float) : CP.record :=
  {| CP.ID := Some id; CP.Description := PStr name;
     CP.pvalue := p; CP.qvalue := q; CP.p_adjust := PFloat q;
     CP.FoldEnrichment := PFloat 2.5; CP.Count := PInt 12;
     CP.GeneRatio := PStr "12/300"; CP.geneID := PStr "IL6/TNF" |}.

Definition gp_columns : list string :=
  ["query"; "significant"; "p_value"; "term_size"; "query_size";
   "intersection_size"; "precision"; "recall"; "term_id"; "source"; "term_name"].

Definition gp_record (source id name : string) (p : float) (sig : bool) : GP.record :=
  {| GP.source := PStr source; GP.term_id := Some id; GP.term_name := PStr name;
     GP.p_value := p; GP.significant := Some sig;
     GP.term_size := PInt 150; GP.intersection_size := PInt 9;
     GP.precision := PFloat 0.03; GP.recall := PFloat 0.06 |}.

Definition tg_columns : list string :=
  ["GO.ID"; "Term"; "Annotated"; "Significant"; "Expected"; "fisher"].

Definition tg_record (id name : string) (fisher : pyval) : TG.record :=
  {| TG.GO_ID := Some id; TG.Term := PStr name; TG.fisher := fisher;
     TG.Annotated := PInt 200; TG.Significant := PInt 10;
     TG.Expected := PFloat 3.5 |}.

(** clusterProfiler reports GO:0001 (q = 0.01) and GO:0002 (q = 0.2). *)
Definition cp_csv : DataFrame CP.record :=
  {| columns := cp_columns;
     rows := [cp_record "GO:0001" "immune response" 0.001 0.01;
              cp_record "GO:0002" "cell cycle" 0.04 0.2] |}.

(** gprofiler2 reports GO:0002 and GO:0003 under GO:BP and one KEGG row. *)
Definition gp_csv : DataFrame GP.record :=
  {| columns := gp_columns;
     rows := [gp_record "GO:BP" "GO:0002" "cell cycle" 0.03 true;
              gp_record "KEGG" "KEGG:04110" "Cell cycle" 0.01 true;
              gp_record "GO:BP" "GO:0003" "apoptotic process" 0.5 false] |}.

(** topGO reports GO:0001 (p = 0.2), GO:0003 (p < 1e-30), GO:0004 with an
    empty p-value cell, which [pd.read_csv] reads as NaN, and GO:0005 with
    a p-value text that is not a number. *)
Definition tg_csv : DataFrame TG.record :=
  {| columns := tg_columns;
     rows := [tg_record "GO:0001" "immune response" (PStr "0.2");
              tg_record "GO:0003" "apoptotic process" (PStr "< 1e-30");
              tg_record "GO:0004" "cell division" NaN;
              tg_record "GO:0005" "cell adhesion" (PStr "not tested")] |}.

(** Two terms that tie on every sort key. *)
Definition tied_csv : DataFrame CP.record :=
  {| columns := cp_columns;
     rows := [cp_record "GO:0001" "immune response" 0.01 0.01;
              cp_record "GO:0002" "cell cycle" 0.01 0.01] |}.

(** gprofiler2 and topGO files that report a third term only. *)
Definition gp_other : DataFrame GP.record :=
  {| columns := gp_columns;
     rows := [gp_record "GO:BP" "GO:0003" "apoptotic process" 0.5 false] |}.

Definition tg_other : DataFrame TG.record :=
  {| columns := tg_columns;
     rows := [tg_record "GO:0003" "apoptotic process" (PFloat 0.2)] |}.

(** A clusterProfiler file without its [qvalue] column. *)
Definition cp_without_qvalue : DataFrame CP.record :=
  {| columns := ["ID"; "Description"; "GeneRatio"; "BgRatio"; "pvalue"; "p.adjust";
                 "geneID"; "Count"; "FoldEnrichment"];
     rows := rows cp_csv |}.


(** The same directory without the gprofiler2 file. *)
Definition results_without_gp : directory :=
  {| clusterProfiler_enrichment_results_csv := Some cp_csv;
     gprofiler2_enrichment_results_csv := None;
     topGO_enrichment_results_csv := Some tg_csv;
     enrichment_methods_comparison_table_csv := None |}.

(** The same directory with the clusterProfiler file lacking [qvalue]. *)
Definition results_bad_schema : directory :=
  {| clusterProfiler_enrichment_results_csv := Some cp_without_qvalue;
     gprofiler2_enrichment_results_csv := Some gp_csv;
     topGO_enrichment_results_csv := Some tg_csv;
     enrichment_methods_comparison_table_csv := None |}.

(** A stand-in for pandas' table rendering. *)
Definition to_string (cols : list string) (df : list ResultDf.row) : string :=
  String.concat newline
    (String.concat " " cols :: map ResultDf.term_id df).


(** What the loaders and [create_comparison_table] make of the sample
    files. *)

Definition loaded {A : Type} (r : result (list A)) : list A :=
  match r with inr l => l | inl _ => [] end.

Definition cp_results := Eval vm_compute in loaded (load_clusterprofiler_results cp_csv).
Definition gp_results := Eval vm_compute in loaded (load_gprofiler2_results gp_csv).
Definition tg_results := Eval vm_compute in loaded (load_topgo_results tg_csv).

(** The table of the sample files, in insertion order of the terms. *)
Definition table : list ResultDf.row :=
  Eval vm_compute in
    loaded (outcome (@create_comparison_table insertion_order
                       cp_csv gp_csv tg_csv 0.05%float)).

(** The tables of [tied_csv], [gp_other] and [tg_other], with the set of
    terms iterated in insertion order and in the reverse order. *)
Definition tied_table : list ResultDf.row :=
  Eval vm_compute in
    loaded (outcome (@create_comparison_table insertion_order
                       tied_csv gp_other tg_other 0.05%float)).

Definition tied_table_reversed : list ResultDf.row :=
  Eval vm_compute in
    loaded (outcome (@create_comparison_table reverse_order
                       tied_csv gp_other tg_other 0.05%float)).



End Examples.

(** * Properties *)

(** ** Text: stripping *)

Module PyStrFacts.

Import PyStr.

Section Strip.

Variable sp : ascii -> bool.

Lemma lstrip_pad (pad s : string) :
  all_of sp pad = true -> lstrip_of sp (pad ++ s) = lstrip_of sp s.
Proof.
  induction pad as [|c pad IH]; simpl; intro H.
  - reflexivity.
  - apply andb_true_iff in H as [Hc Hp]. rewrite Hc. auto.
Qed.

Lemma lstrip_idem (s : string) : lstrip_of sp (lstrip_of sp s) = lstrip_of sp s.
Proof.
  induction s as [|c s IH]; simpl.
  - reflexivity.
  - destruct (sp c) eqn:E; [exact IH | simpl; now rewrite E].
Qed.

Lemma rstrip_cons_kept (c : ascii) (s : string) :
  sp c = false -> rstrip_of sp (String c s) = String c (rstrip_of sp s).
Proof.
  intro H. simpl. destruct (rstrip_of sp s); [now rewrite H | reflexivity].
Qed.

Lemma rstrip_idem (s : string) : rstrip_of sp (rstrip_of sp s) = rstrip_of sp s.
Proof.
  induction s as [|c s IH]; simpl.
  - reflexivity.
  - destruct (rstrip_of sp s) as [|c' r] eqn:E.
    + destruct (sp c) eqn:Ec; simpl; [reflexivity | now rewrite Ec].
    + change (rstrip_of sp (String c (String c' r)) = String c (String c' r)).
      cbn [rstrip_of] in *. now rewrite IH.
Qed.

Lemma lstrip_rstrip (s : string) :
  lstrip_of sp (rstrip_of sp s) = rstrip_of sp (lstrip_of sp s).
Proof.
  induction s as [|c s IH].
  - reflexivity.
  - destruct (sp c) eqn:Ec.
    + cbn [lstrip_of]. rewrite Ec, <- IH. cbn [rstrip_of].
      destruct (rstrip_of sp s) as [|c' r].
      * now rewrite Ec.
      * cbn [lstrip_of]. now rewrite Ec.
    + cbn [lstrip_of]. rewrite Ec, rstrip_cons_kept by assumption.
      cbn [lstrip_of]. now rewrite Ec.
Qed.

Lemma strip_idem (s : string) : strip_of sp (strip_of sp s) = strip_of sp s.
Proof.
  unfold strip_of.
  now rewrite (lstrip_rstrip (lstrip_of sp s)), lstrip_idem, rstrip_idem.
Qed.

Lemma strip_rstrip (s : string) : strip_of sp (rstrip_of sp s) = strip_of sp s.
Proof. unfold strip_of. now rewrite lstrip_rstrip, rstrip_idem. Qed.

(** Stripping a text that starts, after some padding, with a character
    that is kept. *)
Lemma strip_pad_cons (pad : string) (c : ascii) (s : string) :
  all_of sp pad = true -> sp c = false ->
  strip_of sp (pad ++ String c s) = String c (rstrip_of sp s).
Proof.
  intros H Hc. unfold strip_of. rewrite lstrip_pad by assumption.
  cbn [lstrip_of]. rewrite Hc. now apply rstrip_cons_kept.
Qed.

End Strip.

End PyStrFacts.

(** ** [float(text)] raises nothing but [ValueError] *)

Lemma of_string_raises_ValueError (s : string) (e : exn) :
  PyFloat.of_string s = inl e -> e = ValueError.
Proof.
  unfold PyFloat.of_string, raise, ret.
  destruct (PyFloat.drop_underscores None _) as [s1|]; [|congruence].
  destruct (PyFloat.sign s1) as [neg s2].
  destruct (_ || _); [discriminate|].
  destruct (String.eqb _ _); [discriminate|].
  destruct (PyFloat.decimal s2) as [[m e']|]; [discriminate | congruence].
Qed.

Lemma except_ValueError (s : string) :
  match PyFloat.of_string s with
  | inr x => ret x
  | inl ValueError => ret nan
  | inl e => raise e
  end = inr (float_or_nan s).
Proof.
  unfold float_or_nan.
  destruct (PyFloat.of_string s) as [e|x] eqn:E; [|reflexivity].
  apply of_string_raises_ValueError in E. now subst e.
Qed.

Lemma parse_p_value_text (s : string) :
  parse_p_value (PStr s) =
  inr (float_or_nan (if PyStr.startswith "<" (PyStr.strip s)
                     then PyStr.strip (PyStr.tail (PyStr.strip s))
                     else PyStr.strip s)).
Proof.
  unfold parse_p_value. cbn [isna str].
  rewrite except_ValueError. reflexivity.
Qed.

Lemma parse_p_value_missing (v : pyval) :
  isna v = true -> parse_p_value v = inr nan.
Proof. intro H. unfold parse_p_value. now rewrite H. Qed.

Lemma parse_p_value_str (v : pyval) :
  isna v = false -> parse_p_value v = parse_p_value (PStr (str v)).
Proof. intro H. unfold parse_p_value. now rewrite H. Qed.

(** [parse_p_value] never raises. *)
Lemma parse_p_value_returns (v : pyval) : exists x, parse_p_value v = inr x.
Proof.
  destruct (isna v) eqn:E.
  - eexists. now apply parse_p_value_missing.
  - rewrite (parse_p_value_str v E), parse_p_value_text. now eexists.
Qed.

(** C7. [parse_p_value] returns a float for every input and never raises;
    a missing input ([None] or NaN) gives NaN; any other input is read
    through its text [str(v)]; a text that starts, after optional
    whitespace, with ["<"] gives the float value of what follows the
    ["<"], stripped, and any other text gives the float value of the
    stripped text, NaN standing in both cases for a text that [float]
    rejects. In particular ["< 1e-30"] gives 1e-30, ["0.05"] gives 0.05,
    and [""], [None] and ["n/a"] give NaN. *)
Theorem parse_p_value_spec :
  (forall v, exists x, parse_p_value v = inr x) /\
  (forall v, isna v = true -> parse_p_value v = inr nan) /\
  (forall v, isna v = false -> parse_p_value v = parse_p_value (PStr (str v))) /\
  (forall pad s, all_space pad = true ->
     parse_p_value (PStr (pad ++ String "<" s)) = inr (float_or_nan (PyStr.strip s))) /\
  (forall s, PyStr.startswith "<" (PyStr.strip s) = false ->
     parse_p_value (PStr s) = inr (float_or_nan (PyStr.strip s))) /\
  parse_p_value (PStr "< 1e-30") = inr 1e-30%float /\
  parse_p_value (PStr "0.05") = inr 0.05%float /\
  parse_p_value (PStr "") = inr nan /\
  parse_p_value PNone = inr nan /\
  parse_p_value (PStr "n/a") = inr nan.
Proof.
  split; [exact parse_p_value_returns|].
  split; [exact parse_p_value_missing|].
  split; [exact parse_p_value_str|].
  split; [|split].
  - intros pad s H. rewrite parse_p_value_text. unfold PyStr.strip.
    rewrite PyStrFacts.strip_pad_cons by (assumption || reflexivity).
    cbn [PyStr.startswith PyStr.tail]. change (Ascii.eqb "<" "<") with true.
    cbv iota. now rewrite PyStrFacts.strip_rstrip.
  - intros s H. now rewrite parse_p_value_text, H.
  - repeat split; vm_compute; reflexivity.
Qed.

(** The three general statements of [parse_p_value_spec] at work on the
    cell ["  <  0.5 "], on the integer cell [1] and on a NaN cell. *)
Lemma parse_p_value_spec_witness :
  parse_p_value (PStr "  <  0.5 ") = inr 0.5%float /\
  parse_p_value (PInt 1) = inr 1%float /\
  parse_p_value NaN = inr nan.
Proof.
  destruct parse_p_value_spec as (_ & Hmiss & Hstr & Hlt & Hplain & _).
  split; [|split].
  - etransitivity; [exact (Hlt "  " "  0.5 " eq_refl) | vm_compute; reflexivity].
  - etransitivity; [exact (Hstr (PInt 1) eq_refl) |].
    etransitivity; [exact (Hplain "1" eq_refl) | vm_compute; reflexivity].
  - apply Hmiss. reflexivity.
Defined.

(** ** The order of binary64 values

    [<=?] on floats that are not NaN is a total preorder; it is read off
    the specification of the primitive comparison ([leb_spec]) through a
    rank in lexicographically ordered triples of integers. *)

Module FloatFacts.

Import FloatOrder.

Local Open Scope Z_scope.

Ltac compare_cases :=
  repeat match goal with
  | |- context [Z.compare ?a ?b] => destruct (Z.compare_spec a b)
  | |- context [Pos.compare_cont Eq ?a ?b] =>
      change (Pos.compare_cont Eq a b) with (Pos.compare a b);
      destruct (Pos.compare_spec a b)
  end.

Lemma SFleb_rank (x y : spec_float) :
  x <> S754_nan -> y <> S754_nan ->
  (SFleb x y = true <-> lex_le (rank x) (rank y)).
Proof.
  intros Hx Hy. unfold SFleb, SFcompare.
  destruct x as [[]|[]| |[] m1 e1], y as [[]|[]| |[] m2 e2];
    try congruence; cbn [rank lex_le]; compare_cases; cbn [CompOpp];
    split; intros ?; try reflexivity; try discriminate; try lia.
Qed.

Lemma SFltb_rank (x y : spec_float) :
  x <> S754_nan -> y <> S754_nan ->
  (SFltb x y = true <-> lex_lt (rank x) (rank y)).
Proof.
  intros Hx Hy. unfold SFltb, SFcompare.
  destruct x as [[]|[]| |[] m1 e1], y as [[]|[]| |[] m2 e2];
    try congruence; cbn [rank lex_lt]; compare_cases; cbn [CompOpp];
    split; intros ?; try reflexivity; try discriminate; try lia.
Qed.

Lemma is_nan_false (f : float) : is_nan f = false -> Prim2SF f <> S754_nan.
Proof.
  unfold is_nan. rewrite eqb_spec. intros H E. rewrite E in H. discriminate.
Qed.

Lemma is_nan_true (f : float) : is_nan f = true -> Prim2SF f = S754_nan.
Proof.
  unfold is_nan. rewrite eqb_spec. intro H.
  destruct (Prim2SF f) as [[]|[]| |[] m e] eqn:E; try reflexivity;
    exfalso; revert H; unfold SFeqb, SFcompare;
    try (rewrite Z.compare_refl;
         change (Pos.compare_cont Eq m m) with (Pos.compare m m);
         rewrite Pos.compare_refl);
    discriminate.
Qed.

Lemma leb_rank (a b : float) :
  is_nan a = false -> is_nan b = false ->
  ((a <=? b)%float = true <-> lex_le (rank (Prim2SF a)) (rank (Prim2SF b))).
Proof.
  intros Ha Hb. rewrite leb_spec. apply SFleb_rank; now apply is_nan_false.
Qed.

Lemma ltb_rank (a b : float) :
  is_nan a = false -> is_nan b = false ->
  ((a <? b)%float = true <-> lex_lt (rank (Prim2SF a)) (rank (Prim2SF b))).
Proof.
  intros Ha Hb. rewrite ltb_spec. apply SFltb_rank; now apply is_nan_false.
Qed.

Ltac by_rank :=
  repeat match goal with
  | |- context [rank ?x] =>
      let a := fresh "a" in let b := fresh "b" in let c := fresh "c" in
      destruct (rank x) as [[a b] c]
  | H : context [rank ?x] |- _ =>
      let a := fresh "a" in let b := fresh "b" in let c := fresh "c" in
      destruct (rank x) as [[a b] c]
  end;
  unfold lex_le, lex_lt in *; lia.

Lemma leb_refl (a : float) : is_nan a = false -> (a <=? a)%float = true.
Proof. intro Ha. apply leb_rank; trivial. by_rank. Qed.

Lemma leb_total (a b : float) :
  is_nan a = false -> is_nan b = false ->
  (a <=? b)%float = false -> (b <=? a)%float = true.
Proof.
  intros Ha Hb H. apply leb_rank; trivial.
  assert (N : ~ lex_le (rank (Prim2SF a)) (rank (Prim2SF b))).
  { intro L. apply leb_rank in L; trivial. congruence. }
  by_rank.
Qed.

Lemma leb_trans (a b c : float) :
  is_nan a = false -> is_nan b = false -> is_nan c = false ->
  (a <=? b)%float = true -> (b <=? c)%float = true -> (a <=? c)%float = true.
Proof.
  intros Ha Hb Hc H1 H2. apply leb_rank in H1, H2; trivial.
  apply leb_rank; trivial. by_rank.
Qed.

(** Not below means at least, away from NaN. *)
Lemma ltb_false_leb (a b : float) :
  is_nan a = false -> is_nan b = false ->
  (b <? a)%float = false -> (a <=? b)%float = true.
Proof.
  intros Ha Hb H. apply leb_rank; trivial.
  assert (N : ~ lex_lt (rank (Prim2SF b)) (rank (Prim2SF a))).
  { intro L. apply ltb_rank in L; trivial. congruence. }
  by_rank.
Qed.

Lemma ltb_leb (a b : float) :
  is_nan a = false -> is_nan b = false ->
  (b <? a)%float = true -> (b <=? a)%float = true.
Proof.
  intros Ha Hb H. apply ltb_rank in H; trivial. apply leb_rank; trivial. by_rank.
Qed.

End FloatFacts.

(** ** The sort *)

Module SortFacts.

Import ResultDf.

Lemma na_last_le_total (a b : float) :
  na_last_le a b = false -> na_last_le b a = true.
Proof.
  unfold na_last_le. destruct (is_nan b) eqn:Eb; [discriminate|].
  destruct (is_nan a) eqn:Ea; [reflexivity|].
  now apply FloatFacts.leb_total.
Qed.

Lemma na_last_le_trans (a b c : float) :
  na_last_le a b = true -> na_last_le b c = true -> na_last_le a c = true.
Proof.
  unfold na_last_le. destruct (is_nan c) eqn:Ec; [reflexivity|].
  destruct (is_nan b) eqn:Eb; [discriminate|].
  destruct (is_nan a) eqn:Ea; [discriminate|].
  now apply FloatFacts.leb_trans.
Qed.

Lemma precedes_key_le (a b : row) : precedes a b = true <-> key_le a b.
Proof.
  unfold precedes, key_le.
  destruct (Nat.ltb_spec (methods_significant b) (methods_significant a));
  destruct (Nat.ltb_spec (methods_significant a) (methods_significant b));
  destruct (Nat.ltb_spec (methods_total b) (methods_total a));
  destruct (Nat.ltb_spec (methods_total a) (methods_total b));
  split; intro K; try reflexivity; try discriminate; try lia;
  try (right; split; [lia|]; right; split; [lia|]; exact K);
  try (destruct K as [K|[_ [K|[_ K]]]]; [lia | lia | exact K]).
Qed.

Lemma precedes_total (a b : row) : precedes a b = false -> precedes b a = true.
Proof.
  intro H. apply precedes_key_le.
  assert (N : ~ key_le a b) by (rewrite <- precedes_key_le; congruence).
  unfold key_le in *.
  destruct (na_last_le (min_pvalue a) (min_pvalue b)) eqn:E.
  - lia.
  - apply na_last_le_total in E. rewrite E. lia.
Qed.

Lemma precedes_trans (a b c : row) :
  precedes a b = true -> precedes b c = true -> precedes a c = true.
Proof.
  rewrite !precedes_key_le. unfold key_le.
  intros [H1|[E1 [H1|[F1 H1]]]] [H2|[E2 [H2|[F2 H2]]]]; try lia.
  right. split; [lia|]. right. split; [lia|].
  eapply na_last_le_trans; eassumption.
Qed.

Lemma insert_perm (x : row) (l : list row) : Permutation (insert x l) (x :: l).
Proof.
  induction l as [|y l IH]; simpl.
  - apply Permutation_refl.
  - destruct (precedes x y).
    + apply Permutation_refl.
    + rewrite IH. apply perm_swap.
Qed.

Lemma sort_values_perm (l : list row) : Permutation (sort_values l) l.
Proof.
  induction l as [|x l IH]; simpl.
  - apply perm_nil.
  - rewrite insert_perm. now apply perm_skip.
Qed.

Lemma insert_sorted (x : row) (l : list row) :
  StronglySorted before l -> StronglySorted before (insert x l).
Proof.
  induction 1 as [|y l Hs IH Hy]; simpl.
  - repeat constructor.
  - destruct (precedes x y) eqn:E.
    + constructor; [now constructor|].
      constructor; [exact E|].
      eapply Forall_impl; [|exact Hy].
      intros z Hz. eapply precedes_trans; eassumption.
    + constructor; [exact IH|].
      eapply Permutation_Forall; [symmetry; apply insert_perm|].
      constructor; [now apply precedes_total | exact Hy].
Qed.

Lemma sort_values_sorted (l : list row) : StronglySorted before (sort_values l).
Proof.
  induction l as [|x l IH]; simpl.
  - constructor.
  - now apply insert_sorted.
Qed.

(** In a sorted table an earlier row is not after a later one. *)
Lemma sorted_nth (l : list row) :
  StronglySorted before l ->
  forall i j a b, i < j -> nth_error l i = Some a -> nth_error l j = Some b ->
                  before a b.
Proof.
  induction 1 as [|x l Hs IH Hx]; intros i j a b Hij Ha Hb.
  - destruct i; discriminate.
  - destruct j as [|j]; [lia|]. simpl in Hb.
    destruct i as [|i]; simpl in Ha.
    + injection Ha as <-. rewrite Forall_forall in Hx.
      apply Hx. eapply nth_error_In; eassumption.
    + eapply IH; [|eassumption..]. lia.
Qed.

End SortFacts.

(** ** The joins *)

Module MergeFacts.

Import MasterDf.

Section Merge.

Context {R : Type} (key : R -> option string) (attach : row -> option R -> row).
Hypothesis attach_term_id : forall m o, term_id (attach m o) = term_id m.

(** A key that is unique in [right] has at most one partner. *)
Lemma unique_partner (right : list R) (t : string) :
  NoDup (dropna (map key right)) ->
  List.length (filter (fun r => key_is t (key r)) right) <= 1.
Proof.
  induction right as [|r right IH]; simpl; intro H.
  - lia.
  - destruct (key r) as [k|] eqn:E; simpl in *.
    + apply NoDup_cons_iff in H as [Hk H]. specialize (IH H).
      destruct (String.eqb_spec k t) as [->|]; [|exact IH]. simpl.
      assert (Z : filter (fun r0 => key_is t (key r0)) right = []).
      { destruct (filter _ right) as [|r' rest] eqn:F; [reflexivity|].
        exfalso. apply Hk.
        assert (In r' (filter (fun r0 => key_is t (key r0)) right))
          by (rewrite F; now left).
        apply filter_In in H0 as [Hin Hkey].
        unfold key_is in Hkey. destruct (key r') as [k'|] eqn:E'; [|discriminate].
        apply String.eqb_eq in Hkey. subst k'.
        clear - Hin E'. induction right as [|q right IH]; simpl in *; [easy|].
        destruct Hin as [->|Hin].
        - rewrite E'. now left.
        - destruct (key q); [right|]; auto. }
      rewrite Z. simpl. lia.
    + auto.
Qed.

(** A left join keeps the keys of [left], in order, when the keys of
    [right] are unique: no row is dropped and none is repeated. *)
Lemma merge_term_ids (left : list row) (right : list R) :
  NoDup (dropna (map key right)) ->
  map term_id (merge key attach left right) = map term_id left.
Proof.
  intro H. unfold merge. induction left as [|m left IH].
  - reflexivity.
  - cbn [flat_map]. rewrite map_app, IH. clear IH. cbn [map]. f_equal.
    pose proof (unique_partner right (term_id m) H) as U.
    destruct (filter _ right) as [|r [|r' rest]]; simpl in *;
      rewrite ?attach_term_id; try reflexivity; lia.
Qed.

(** A row of the join is a row of [left] with a partner from [right] that
    has its key, or with none. *)
Lemma merge_In (left : list row) (right : list R) (m' : row) :
  In m' (merge key attach left right) ->
  exists m o, In m left /\ m' = attach m o /\
              forall r, o = Some r -> In r right /\ key_is (term_id m) (key r) = true.
Proof.
  unfold merge. intro H. apply in_flat_map in H as (m & Hm & H).
  exists m. destruct (filter _ right) as [|r0 rest] eqn:F.
  - destruct H as [<-|[]]. exists None.
    split; [exact Hm|]. split; [reflexivity|]. discriminate.
  - apply in_map_iff in H as (r & <- & Hr). exists (Some r).
    split; [exact Hm|]. split; [reflexivity|].
    intros r' E. injection E as <-.
    rewrite <- F in Hr. now apply filter_In in Hr.
Qed.

(** Joining a reordered left table gives the same rows, reordered. *)
Lemma merge_perm (left left' : list row) (right : list R) :
  Permutation left left' ->
  Permutation (merge key attach left right) (merge key attach left' right).
Proof. intro H. unfold merge. now apply Permutation_flat_map. Qed.

End Merge.

Lemma dropna_In (l : list (option string)) (t : string) :
  In t (dropna l) <-> In (Some t) l.
Proof.
  induction l as [|[s|] l IH]; simpl.
  - tauto.
  - rewrite IH. split; intros [H|H]; auto; left; congruence.
  - rewrite IH. split; [auto|]. intros [H|H]; [discriminate | auto].
Qed.

End MergeFacts.

(** ** [create_comparison_table]: what is returned *)

Section TableFacts.

Context {order : SetOrder}.

Lemma create_comparison_table_returns
    (cpf : DataFrame CP.record) (gpf : DataFrame GP.record)
    (tgf : DataFrame TG.record) (threshold : float)
    (cp : list CpResults.row) (gp : list GpResults.row) (tg : list TgResults.row) :
  load_clusterprofiler_results cpf = inr cp ->
  load_gprofiler2_results gpf = inr gp ->
  load_topgo_results tgf = inr tg ->
  outcome (create_comparison_table cpf gpf tgf threshold)
  = inr (comparison_table cp gp tg).
Proof.
  intros Hcp Hgp Htg. unfold create_comparison_table.
  rewrite Hcp, Hgp, Htg. reflexivity.
Qed.

(** A returned table is the table of three loaded tables. *)
Lemma create_comparison_table_inv
    (cpf : DataFrame CP.record) (gpf : DataFrame GP.record)
    (tgf : DataFrame TG.record) (threshold : float) (table : list ResultDf.row) :
  outcome (create_comparison_table cpf gpf tgf threshold) = inr table ->
  exists cp gp tg,
    load_clusterprofiler_results cpf = inr cp /\
    load_gprofiler2_results gpf = inr gp /\
    load_topgo_results tgf = inr tg /\
    table = comparison_table cp gp tg.
Proof.
  unfold create_comparison_table.
  destruct (load_clusterprofiler_results cpf) as [e|cp]; [discriminate|].
  destruct (load_gprofiler2_results gpf) as [e|gp]; [discriminate|].
  destruct (load_topgo_results tgf) as [e|tg]; [discriminate|].
  cbn. intro H. injection H as <-. now exists cp, gp, tg.
Qed.

(** Every row of the table is the final form of a row of [master_df]. *)
Lemma comparison_table_rows
    (cp : list CpResults.row) (gp : list GpResults.row) (tg : list TgResults.row)
    (r : ResultDf.row) :
  In r (comparison_table cp gp tg) ->
  exists m, In m (merged cp gp tg) /\ r = result_row m.
Proof.
  intro H. unfold comparison_table in H.
  apply (Permutation_in _ (SortFacts.sort_values_perm _)) in H.
  apply in_map_iff in H as (m & <- & Hm). now exists m.
Qed.

Lemma comparison_table_term_ids
    (cp : list CpResults.row) (gp : list GpResults.row) (tg : list TgResults.row) :
  Permutation (map ResultDf.term_id (comparison_table cp gp tg))
              (map MasterDf.term_id (merged cp gp tg)).
Proof.
  unfold comparison_table.
  rewrite (Permutation_map _ (SortFacts.sort_values_perm _)), map_map.
  apply Permutation_refl.
Qed.

(** With unique keys in the three tables, [master_df] has the rows of
    [all_terms], in that order. *)
Lemma merged_term_ids
    (cp : list CpResults.row) (gp : list GpResults.row) (tg : list TgResults.row) :
  NoDup (dropna (map CpResults.term_id cp)) ->
  NoDup (dropna (map GpResults.term_id gp)) ->
  NoDup (dropna (map TgResults.term_id tg)) ->
  map MasterDf.term_id (merged cp gp tg) = all_terms cp gp tg.
Proof.
  intros Hcp Hgp Htg. unfold merged.
  rewrite !MergeFacts.merge_term_ids by (trivial; reflexivity).
  unfold MasterDf.of_terms. rewrite map_map. apply map_id.
Qed.

(** The partners of a row of [master_df] are rows of the three tables
    with the key of the row. *)
Lemma merged_partners
    (cp : list CpResults.row) (gp : list GpResults.row) (tg : list TgResults.row)
    (m : MasterDf.row) :
  In m (merged cp gp tg) ->
  (forall r, MasterDf.cp m = Some r ->
             In r cp /\ CpResults.term_id r = Some (MasterDf.term_id m)) /\
  (forall r, MasterDf.gp m = Some r ->
             In r gp /\ GpResults.term_id r = Some (MasterDf.term_id m)) /\
  (forall r, MasterDf.tg m = Some r ->
             In r tg /\ TgResults.term_id r = Some (MasterDf.term_id m)).
Proof.
  assert (K : forall t k, MasterDf.key_is t k = true -> k = Some t).
  { intros t [k|] H; [|discriminate]. apply String.eqb_eq in H. now subst. }
  unfold merged. intro H.
  apply MergeFacts.merge_In in H as (m2 & o2 & H & -> & P2).
  apply MergeFacts.merge_In in H as (m1 & o1 & H & -> & P1).
  apply MergeFacts.merge_In in H as (m0 & o0 & H & -> & P0).
  unfold MasterDf.of_terms in H. apply in_map_iff in H as (t & <- & _).
  cbn in *.
  split; [|split]; intros r' E; (split; [|apply K]);
    first [now apply P0 | now apply P1 | now apply P2].
Qed.

Lemma all_terms_In
    (cp : list CpResults.row) (gp : list GpResults.row) (tg : list TgResults.row)
    (t : string) :
  In t (all_terms cp gp tg) <->
  In (Some t) (map CpResults.term_id cp) \/
  In (Some t) (map GpResults.term_id gp) \/
  In (Some t) (map TgResults.term_id tg).
Proof.
  unfold all_terms.
  rewrite <- !MergeFacts.dropna_In, <- !in_app_iff.
  etransitivity; [|apply (nodup_In string_dec)].
  split; apply Permutation_in; [|symmetry]; apply set_list_perm.
Qed.


End TableFacts.


(** The sample files load, and their term identifiers are unique. *)

Module ExampleFacts.

Import Examples.

Lemma cp_loads : load_clusterprofiler_results cp_csv = inr cp_results.
Proof. vm_compute. reflexivity. Defined.

Lemma gp_loads : load_gprofiler2_results gp_csv = inr gp_results.
Proof. vm_compute. reflexivity. Defined.

Lemma tg_loads : load_topgo_results tg_csv = inr tg_results.
Proof. vm_compute. reflexivity. Defined.

Ltac distinct := repeat constructor; simpl; intuition discriminate.

Lemma cp_unique : NoDup (dropna (map CpResults.term_id cp_results)).
Proof. distinct. Defined.

Lemma gp_unique : NoDup (dropna (map GpResults.term_id gp_results)).
Proof. distinct. Defined.

Lemma tg_unique : NoDup (dropna (map TgResults.term_id tg_results)).
Proof. distinct. Defined.

Lemma table_returned :
  outcome (@create_comparison_table insertion_order cp_csv gp_csv tg_csv 0.05%float)
  = inr table.
Proof. vm_compute. reflexivity. Defined.

End ExampleFacts.


(** C5. In every row of the returned table, [methods_total] is the number
    of the row's three p-value cells ([clusterprofiler_pvalue],
    [gprofiler2_pvalue], [topgo_pvalue]) that are not missing; it lies
    between 0 and 3. *)
Theorem methods_total_counts_pvalues
    (order : SetOrder)
    (cpf : DataFrame CP.record) (gpf : DataFrame GP.record)
    (tgf : DataFrame TG.record) (threshold : float)
    (table : list ResultDf.row) (r : ResultDf.row) :
  outcome (create_comparison_table cpf gpf tgf threshold) = inr table ->
  In r table ->
  ResultDf.methods_total r
  = List.length (filter (fun p => negb (is_nan p))
                        [ResultDf.clusterprofiler_pvalue r;
                         ResultDf.gprofiler2_pvalue r;
                         ResultDf.topgo_pvalue r]) /\
  ResultDf.methods_total r <= 3.
Proof.
  intros Hrun Hr.
  apply create_comparison_table_inv in Hrun as (cp & gp & tg & _ & _ & _ & ->).
  apply comparison_table_rows in Hr as (m & _ & ->).
  cbn [result_row ResultDf.methods_total ResultDf.clusterprofiler_pvalue
       ResultDf.gprofiler2_pvalue ResultDf.topgo_pvalue filter].
  unfold methods_total, reported.
  destruct (is_nan (MasterDf.clusterprofiler_pvalue m)),
           (is_nan (MasterDf.gprofiler2_pvalue m)),
           (is_nan (MasterDf.topgo_pvalue m)); cbn; lia.
Qed.

(** [methods_total_counts_pvalues] on the first row of the sample table
    (GO:0003: no clusterProfiler p-value, two others). *)
Lemma methods_total_counts_pvalues_witness :
  exists r,
    nth_error Examples.table 0 = Some r /\
    ResultDf.term_id r = "GO:0003" /\
    ResultDf.methods_total r = 2 /\
    ResultDf.methods_total r
    = List.length (filter (fun p => negb (is_nan p))
                          [ResultDf.clusterprofiler_pvalue r;
                           ResultDf.gprofiler2_pvalue r;
                           ResultDf.topgo_pvalue r]) /\
    ResultDf.methods_total r <= 3.
Proof.
  eexists. split; [reflexivity|]. split; [reflexivity|]. split; [reflexivity|].
  exact (methods_total_counts_pvalues insertion_order _ _ _ _ _ _
           ExampleFacts.table_returned (or_introl eq_refl)).
Defined.

(** C6. In every row of the returned table, [methods_significant] is the
    number of the row's three significance flags
    ([clusterprofiler_significant], [gprofiler2_significant],
    [topgo_significant_flag]) that are [True]; a missing flag is not
    [True], so it counts as false; the count lies between 0 and 3. *)
Theorem methods_significant_counts_flags
    (order : SetOrder)
    (cpf : DataFrame CP.record) (gpf : DataFrame GP.record)
    (tgf : DataFrame TG.record) (threshold : float)
    (table : list ResultDf.row) (r : ResultDf.row) :
  outcome (create_comparison_table cpf gpf tgf threshold) = inr table ->
  In r table ->
  ResultDf.methods_significant r
  = List.length (filter is_True
                        [ResultDf.clusterprofiler_significant r;
                         ResultDf.gprofiler2_significant r;
                         ResultDf.topgo_significant_flag r]) /\
  ResultDf.methods_significant r <= 3.
Proof.
  intros Hrun Hr.
  apply create_comparison_table_inv in Hrun as (cp & gp & tg & _ & _ & _ & ->).
  apply comparison_table_rows in Hr as (m & _ & ->).
  cbn [result_row ResultDf.methods_significant ResultDf.clusterprofiler_significant
       ResultDf.gprofiler2_significant ResultDf.topgo_significant_flag filter].
  unfold methods_significant, fillna_False.
  destruct (MasterDf.clusterprofiler_significant m) as [[]|],
           (MasterDf.gprofiler2_significant m) as [[]|],
           (MasterDf.topgo_significant_flag m) as [[]|]; cbn; lia.
Qed.

(** [methods_significant_counts_flags] on the second row of the sample
    table (GO:0001: significant for clusterProfiler, not for topGO, not
    reported by gprofiler2). *)
Lemma methods_significant_counts_flags_witness :
  exists r,
    nth_error Examples.table 1 = Some r /\
    ResultDf.term_id r = "GO:0001" /\
    ResultDf.clusterprofiler_significant r = Some true /\
    ResultDf.gprofiler2_significant r = None /\
    ResultDf.topgo_significant_flag r = Some false /\
    ResultDf.methods_total r = 2 /\
    ResultDf.methods_significant r = 1 /\
    ResultDf.methods_significant r
    = List.length (filter is_True
                          [ResultDf.clusterprofiler_significant r;
                           ResultDf.gprofiler2_significant r;
                           ResultDf.topgo_significant_flag r]) /\
    ResultDf.methods_significant r <= 3.
Proof.
  eexists. do 7 (split; [reflexivity|]).
  exact (methods_significant_counts_flags insertion_order _ _ _ _ _ _
           ExampleFacts.table_returned (or_intror (or_introl eq_refl))).
Defined.

(** C4, on the code: in the sample files topGO alone reports GO:0004,
    with an empty p-value cell, and GO:0005, with the p-value text
    ["not tested"]. The returned table has a row for each of the two
    terms; each term is reported by one method, and the [methods_total]
    of its row is 0: the count follows the p-value cells, not the presence
    of the term in a method's table. *)
Theorem methods_total_misses_unreadable_pvalue (order : SetOrder) :
  exists cp gp tg table,
    load_clusterprofiler_results Examples.cp_csv = inr cp /\
    load_gprofiler2_results Examples.gp_csv = inr gp /\
    load_topgo_results Examples.tg_csv = inr tg /\
    outcome (create_comparison_table Examples.cp_csv Examples.gp_csv
                                     Examples.tg_csv 0.05%float)
    = inr table /\
    methods_reporting cp gp tg "GO:0004" = 1 /\
    methods_reporting cp gp tg "GO:0005" = 1 /\
    (exists r, In r table /\ ResultDf.term_id r = "GO:0004") /\
    (exists r, In r table /\ ResultDf.term_id r = "GO:0005") /\
    forall r, In r table ->
              ResultDf.term_id r = "GO:0004" \/ ResultDf.term_id r = "GO:0005" ->
              ResultDf.methods_total r = 0.
Proof.
  exists Examples.cp_results, Examples.gp_results, Examples.tg_results.
  exists (comparison_table Examples.cp_results Examples.gp_results
                           Examples.tg_results).
  split; [exact ExampleFacts.cp_loads|].
  split; [exact ExampleFacts.gp_loads|].
  split; [exact ExampleFacts.tg_loads|].
  split.
  { apply create_comparison_table_returns;
      [exact ExampleFacts.cp_loads | exact ExampleFacts.gp_loads
       | exact ExampleFacts.tg_loads]. }
  split; [reflexivity|]. split; [reflexivity|].
  assert (Hrow : forall t,
             In (Some t) (map TgResults.term_id Examples.tg_results) ->
             exists r, In r (comparison_table Examples.cp_results
                               Examples.gp_results Examples.tg_results) /\
                       ResultDf.term_id r = t).
  { intros t Ht.
    assert (H : In t (map ResultDf.term_id
                        (comparison_table Examples.cp_results Examples.gp_results
                                          Examples.tg_results))).
    { apply (Permutation_in _ (Permutation_sym (comparison_table_term_ids _ _ _))).
      rewrite merged_term_ids
        by (apply ExampleFacts.cp_unique || apply ExampleFacts.gp_unique
            || apply ExampleFacts.tg_unique).
      apply all_terms_In. auto. }
    apply in_map_iff in H as (r & E & Hr). now exists r. }
  split; [apply Hrow; simpl; tauto|]. split; [apply Hrow; simpl; tauto|].
  intros r Hr Ht.
  apply comparison_table_rows in Hr as (m & Hm & ->).
  apply merged_partners in Hm as (Hcp & Hgp & Htg).
  cbn [result_row ResultDf.methods_total ResultDf.term_id] in *.
  unfold methods_total, MasterDf.clusterprofiler_pvalue,
    MasterDf.gprofiler2_pvalue, MasterDf.topgo_pvalue.
  (* no clusterProfiler or gprofiler2 row has one of these keys, and the
     topGO rows that do have a NaN p-value *)
  destruct (MasterDf.cp m) as [r|].
  { destruct (Hcp r eq_refl) as [Hin Hk]. exfalso.
    destruct Hin as [<-|[<-|[]]]; destruct Ht as [Ht|Ht];
      rewrite Ht in Hk; discriminate Hk. }
  destruct (MasterDf.gp m) as [r|].
  { destruct (Hgp r eq_refl) as [Hin Hk]. exfalso.
    destruct Hin as [<-|[<-|[]]]; destruct Ht as [Ht|Ht];
      rewrite Ht in Hk; discriminate Hk. }
  destruct (MasterDf.tg m) as [r|]; [|reflexivity].
  destruct (Htg r eq_refl) as [Hin Hk].
  destruct Hin as [<-|[<-|[<-|[<-|[]]]]]; destruct Ht as [Ht|Ht];
    rewrite Ht in Hk; try discriminate Hk; reflexivity.
Qed.

(** ** The smallest p-value of a row *)

Lemma is_min_of_one (a : float) : is_min_of a [a].
Proof.
  unfold is_min_of. destruct (is_nan a) eqn:E.
  - left. auto.
  - right. repeat split; [now left|].
    constructor; [|constructor]. right. now apply FloatFacts.leb_refl.
Qed.

Lemma nanmin_is_min (m c : float) (ps : list float) :
  is_min_of m ps -> is_min_of (ResultDf.nanmin m c) (ps ++ [c]).
Proof.
  unfold ResultDf.nanmin. intros [[Hm Hps]|(Hm & Hin & Hps)]; rewrite Hm.
  - destruct (is_nan c) eqn:Ec.
    + left. split; [exact Ec|]. apply Forall_app. auto.
    + right. split; [exact Ec|]. split; [apply in_or_app; right; now left|].
      apply Forall_app. split.
      * eapply Forall_impl; [|exact Hps]. intros p Hp. now left.
      * constructor; [|constructor]. right. now apply FloatFacts.leb_refl.
  - destruct (is_nan c) eqn:Ec.
    + right. split; [exact Hm|]. split; [apply in_or_app; now left|].
      apply Forall_app. split; [exact Hps|]. constructor; [now left|constructor].
    + destruct (c <? m)%float eqn:Elt.
      * right. split; [exact Ec|]. split; [apply in_or_app; right; now left|].
        apply Forall_app. split.
        -- eapply Forall_impl; [|exact Hps]. intros p [Hp|Hp]; [now left|].
           destruct (is_nan p) eqn:Ep; [now left|]. right.
           apply (FloatFacts.leb_trans c m p); trivial.
           now apply FloatFacts.ltb_leb.
        -- constructor; [|constructor]. right. now apply FloatFacts.leb_refl.
      * right. split; [exact Hm|]. split; [apply in_or_app; now left|].
        apply Forall_app. split; [exact Hps|].
        constructor; [|constructor]. right. now apply FloatFacts.ltb_false_leb.
Qed.

(** The helper column [min_pvalue] is that minimum. *)
Lemma min_pvalue_is_min (r : ResultDf.row) :
  is_min_of (ResultDf.min_pvalue r) (pvalues r).
Proof.
  unfold ResultDf.min_pvalue, pvalues.
  apply (nanmin_is_min _ _ [_; _]), (nanmin_is_min _ _ [_]), is_min_of_one.
Qed.

Section Sorted.

Context {order : SetOrder}.

Lemma comparison_table_sorted
    (cp : list CpResults.row) (gp : list GpResults.row) (tg : list TgResults.row) :
  StronglySorted before (comparison_table cp gp tg).
Proof. apply SortFacts.sort_values_sorted. Qed.

End Sorted.

(** C2. For two adjacent rows [a], [b] of the returned table, with [ma]
    and [mb] the minima of their p-values that are not missing:
    [methods_significant] does not increase from [a] to [b]; when it is
    equal, [methods_total] does not increase; when both are equal, either
    [b] has no p-value at all, or both rows have one and [ma <= mb]. A row
    without any p-value thus never comes before a row with one among
    rows with equal counts. *)
Theorem sorted_by_keys
    (order : SetOrder)
    (cpf : DataFrame CP.record) (gpf : DataFrame GP.record)
    (tgf : DataFrame TG.record) (threshold : float)
    (table : list ResultDf.row) (i : nat) (a b : ResultDf.row) :
  outcome (create_comparison_table cpf gpf tgf threshold) = inr table ->
  nth_error table i = Some a ->
  nth_error table (S i) = Some b ->
  exists ma mb,
    is_min_of ma (pvalues a) /\
    is_min_of mb (pvalues b) /\
    ResultDf.methods_significant b <= ResultDf.methods_significant a /\
    (ResultDf.methods_significant a = ResultDf.methods_significant b ->
     ResultDf.methods_total b <= ResultDf.methods_total a) /\
    (ResultDf.methods_significant a = ResultDf.methods_significant b ->
     ResultDf.methods_total a = ResultDf.methods_total b ->
     is_nan mb = true \/ (is_nan ma = false /\ (ma <=? mb)%float = true)).
Proof.
  intros Hrun Ha Hb.
  apply create_comparison_table_inv in Hrun as (cp & gp & tg & _ & _ & _ & ->).
  exists (ResultDf.min_pvalue a), (ResultDf.min_pvalue b).
  split; [apply min_pvalue_is_min|]. split; [apply min_pvalue_is_min|].
  assert (K : key_le a b).
  { apply SortFacts.precedes_key_le.
    apply (SortFacts.sorted_nth _ (comparison_table_sorted cp gp tg) i (S i));
      [lia | assumption | assumption]. }
  unfold key_le, ResultDf.na_last_le in K.
  split; [lia|]. split; [lia|]. intros E1 E2.
  destruct K as [K|[_ [K|[_ K]]]]; [lia | lia |].
  destruct (is_nan (ResultDf.min_pvalue b)); [now left|].
  destruct (is_nan (ResultDf.min_pvalue a)); [discriminate|]. now right.
Qed.

(** [sorted_by_keys] on the second and third rows of the sample table:
    GO:0001 and GO:0002 agree on both counts, and 0.001 <= 0.03. *)
Lemma sorted_by_keys_witness :
  exists a b ma mb,
    nth_error Examples.table 1 = Some a /\
    nth_error Examples.table 2 = Some b /\
    ResultDf.term_id a = "GO:0001" /\ ResultDf.term_id b = "GO:0002" /\
    is_min_of ma (pvalues a) /\
    is_min_of mb (pvalues b) /\
    ResultDf.methods_significant b <= ResultDf.methods_significant a /\
    (ResultDf.methods_significant a = ResultDf.methods_significant b ->
     ResultDf.methods_total b <= ResultDf.methods_total a) /\
    (ResultDf.methods_significant a = ResultDf.methods_significant b ->
     ResultDf.methods_total a = ResultDf.methods_total b ->
     is_nan mb = true \/ (is_nan ma = false /\ (ma <=? mb)%float = true)).
Proof.
  destruct (sorted_by_keys insertion_order _ _ _ _ _ 1 _ _
              ExampleFacts.table_returned eq_refl eq_refl) as (ma & mb & H).
  eexists _, _, ma, mb.
  split; [reflexivity|]. split; [reflexivity|].
  split; [reflexivity|]. split; [reflexivity|]. exact H.
Defined.

(** ** Runs under different iteration orders of the set *)

Lemma before_both_ways (a b : ResultDf.row) :
  before a b -> before b a -> same_keys a b.
Proof.
  unfold before. rewrite !SortFacts.precedes_key_le.
  unfold key_le, same_keys, ResultDf.na_last_le.
  intros [H1|[E1 [H1|[F1 H1]]]] [H2|[E2 [H2|[F2 H2]]]]; try lia.
  split; [exact E1|]. split; [exact F1|]. cbv zeta.
  destruct (is_nan (ResultDf.min_pvalue a)), (is_nan (ResultDf.min_pvalue b));
    try discriminate; [left | right]; auto.
Qed.

Lemma comparison_table_perm (o1 o2 : SetOrder)
    (cp : list CpResults.row) (gp : list GpResults.row) (tg : list TgResults.row) :
  Permutation (@comparison_table o1 cp gp tg) (@comparison_table o2 cp gp tg).
Proof.
  unfold comparison_table.
  rewrite !SortFacts.sort_values_perm. apply Permutation_map.
  unfold merged. do 3 apply MergeFacts.merge_perm.
  unfold MasterDf.of_terms. apply Permutation_map.
  unfold all_terms. rewrite !set_list_perm. apply Permutation_refl.
Qed.

(** C3, as the code has it. For a fixed trio of input files, two runs
    (whose sets of term identifiers may iterate in different orders [o1]
    and [o2]) end alike: both raise the same error, or both return a
    table, and then the two tables hold the same rows (one is a
    permutation of the other); two rows that come in one order in the
    first table and in the other order in the second tie on all three
    sort keys; and the tables are identical, row order included, when the
    set iterates in the same order in both runs. *)
Theorem deterministic_up_to_ties
    (o1 o2 : SetOrder)
    (cpf : DataFrame CP.record) (gpf : DataFrame GP.record)
    (tgf : DataFrame TG.record) (threshold : float) :
  match outcome (@create_comparison_table o1 cpf gpf tgf threshold),
        outcome (@create_comparison_table o2 cpf gpf tgf threshold) with
  | inr t1, inr t2 =>
      Permutation t1 t2 /\
      (forall i j i' j' a b,
          i < j -> nth_error t1 i = Some a -> nth_error t1 j = Some b ->
          j' < i' -> nth_error t2 i' = Some a -> nth_error t2 j' = Some b ->
          same_keys a b) /\
      ((forall l, @set_list o1 l = @set_list o2 l) -> t1 = t2)
  | inl e1, inl e2 => e1 = e2
  | _, _ => False
  end.
Proof.
  unfold create_comparison_table.
  destruct (load_clusterprofiler_results cpf) as [e|cp]; [reflexivity|].
  destruct (load_gprofiler2_results gpf) as [e|gp]; [reflexivity|].
  destruct (load_topgo_results tgf) as [e|tg]; [reflexivity|].
  cbn. split; [apply comparison_table_perm|]. split.
  - intros i j i' j' a b Hij Ha Hb Hji Ha' Hb'.
    apply before_both_ways.
    + exact (SortFacts.sorted_nth _ (@comparison_table_sorted o1 cp gp tg)
               i j a b Hij Ha Hb).
    + exact (SortFacts.sorted_nth _ (@comparison_table_sorted o2 cp gp tg)
               j' i' b a Hji Hb' Ha').
  - intro H. unfold comparison_table, merged, all_terms. now rewrite H.
Qed.

(** [deterministic_up_to_ties] on the file with two tied terms: the two
    runs return the same two rows, and the rows, which come in opposite
    orders, tie on the three keys. *)
Lemma deterministic_up_to_ties_witness :
  Permutation Examples.tied_table Examples.tied_table_reversed /\
  exists a b c,
    Examples.tied_table = [a; b; c] /\
    Examples.tied_table_reversed = [b; a; c] /\
    same_keys a b.
Proof.
  pose proof (deterministic_up_to_ties insertion_order reverse_order
                Examples.tied_csv Examples.gp_other Examples.tg_other 0.05%float) as H.
  change (outcome (@create_comparison_table insertion_order Examples.tied_csv
                     Examples.gp_other Examples.tg_other 0.05%float))
    with (@inr exn _ Examples.tied_table) in H.
  change (outcome (@create_comparison_table reverse_order Examples.tied_csv
                     Examples.gp_other Examples.tg_other 0.05%float))
    with (@inr exn _ Examples.tied_table_reversed) in H.
  destruct H as (Hperm & Hties & _).
  split; [exact Hperm|].
  eexists _, _, _. split; [reflexivity|]. split; [reflexivity|].
  apply (Hties 0 1 1 0); [apply Nat.lt_0_1 | reflexivity | reflexivity
                         | apply Nat.lt_0_1 | reflexivity | reflexivity].
Defined.

(** C3 fails as stated: on input files in which two terms tie on every
    sort key, the run whose set iterates in insertion order and
    the run whose set iterates in the reverse order return the two rows
    in opposite orders. *)
Lemma row_order_depends_on_set_order :
  exists t1 t2,
    outcome (@create_comparison_table insertion_order
               Examples.tied_csv Examples.gp_other Examples.tg_other 0.05%float) = inr t1 /\
    outcome (@create_comparison_table reverse_order
               Examples.tied_csv Examples.gp_other Examples.tg_other 0.05%float) = inr t2 /\
    map ResultDf.term_id t1 = ["GO:0001"; "GO:0002"; "GO:0003"] /\
    map ResultDf.term_id t2 = ["GO:0002"; "GO:0001"; "GO:0003"] /\
    t1 <> t2.
Proof.
  eexists _, _.
  split; [vm_compute; reflexivity|]. split; [vm_compute; reflexivity|].
  split; [reflexivity|]. split; [reflexivity|].
  intro H. apply (f_equal (map ResultDf.term_id)) in H. discriminate H.
Qed.

(** ** Schemas and the loaders *)

Lemma first_missing_Some (required header : list string) (c : string) :
  first_missing required header = Some c -> In c required /\ ~ In c header.
Proof.
  intro H. apply find_some in H as [Hin Hc]. split; [exact Hin|].
  now destruct (in_dec string_dec c header).
Qed.

Lemma lacks_first_missing (required header : list string) :
  lacks required header -> exists c, first_missing required header = Some c.
Proof.
  intros (c & Hin & Hc).
  destruct (first_missing required header) as [c'|] eqn:E; [now exists c'|].
  exfalso. apply (find_none _ _ E) in Hin.
  now destruct (in_dec string_dec c header).
Qed.

Lemma first_missing_None (required header : list string) :
  first_missing required header = None -> ~ lacks required header.
Proof.
  intros E H. apply lacks_first_missing in H as (c & H). congruence.
Qed.

Ltac read_columns :=
  repeat (match goal with
          | |- context [in_dec string_dec ?c ?h] => destruct (in_dec string_dec c h)
          end; cbn [bind ret raise]; try reflexivity).

(** A loader raises [KeyError] on the first missing column and returns a
    table when no column is missing. *)
Lemma load_clusterprofiler_results_columns (df : DataFrame CP.record) :
  match first_missing cp_required (columns df) with
  | Some c => load_clusterprofiler_results df = inl (KeyError c)
  | None => exists cp, load_clusterprofiler_results df = inr cp /\
      Forall (fun r => CpResults.clusterprofiler_significant r
                       = (CpResults.clusterprofiler_qvalue r <? 0.05)%float) cp
  end.
Proof.
  unfold load_clusterprofiler_results, getitem, first_missing, cp_required.
  cbn [find]. read_columns.
  eexists. split; [reflexivity|].
  apply Forall_forall. intros r Hr. apply in_map_iff in Hr as (x & <- & _).
  reflexivity.
Qed.

Lemma load_gprofiler2_results_columns (df : DataFrame GP.record) :
  match first_missing gp_required (columns df) with
  | Some c => load_gprofiler2_results df = inl (KeyError c)
  | None => exists gp, load_gprofiler2_results df = inr gp
  end.
Proof.
  unfold load_gprofiler2_results, getitem, first_missing, gp_required.
  cbn [find columns]. read_columns. now eexists.
Qed.

(** [Series.apply(f)] with the topGO row builder never raises. *)
Lemma apply_parse {A B : Type} (fisher : A -> pyval) (mk : A -> float -> B)
    (l : list A) :
  exists l', Series_apply (fun r => x <- parse_p_value (fisher r) ;; ret (mk r x)) l
             = inr l' /\
             Forall (fun b => exists r x, parse_p_value (fisher r) = inr x /\ b = mk r x) l'.
Proof.
  induction l as [|a l (l' & IH & F)]; cbn [Series_apply].
  - exists []. split; [reflexivity | constructor].
  - destruct (parse_p_value_returns (fisher a)) as (x & Hx).
    rewrite Hx, IH. cbn. eexists. split; [reflexivity|].
    constructor; [now exists a, x | exact F].
Qed.

Lemma load_topgo_results_columns (df : DataFrame TG.record) :
  match first_missing tg_required (columns df) with
  | Some c => load_topgo_results df = inl (KeyError c)
  | None => exists tg, load_topgo_results df = inr tg /\
      Forall (fun r => TgResults.topgo_significant_flag r
                       = (TgResults.topgo_pvalue r <? 0.05)%float) tg
  end.
Proof.
  unfold load_topgo_results, getitem, first_missing, tg_required.
  cbn [find]. read_columns.
  match goal with
  | |- context [Series_apply ?f (rows df)] =>
      destruct (apply_parse TG.fisher
                  (fun r x =>
                     {| TgResults.term_id := TG.GO_ID r;
                        TgResults.term_name := TG.Term r;
                        TgResults.topgo_pvalue_raw := TG.fisher r;
                        TgResults.topgo_annotated := TG.Annotated r;
                        TgResults.topgo_significant := TG.Significant r;
                        TgResults.topgo_expected := TG.Expected r;
                        TgResults.topgo_pvalue := x;
                        TgResults.topgo_significant_flag := (x <? 0.05)%float |})
                  (rows df)) as (tg & Htg & F)
  end.
  exists tg. split; [exact Htg|].
  eapply Forall_impl; [|exact F]. intros b (r & x & _ & ->). reflexivity.
Qed.

(** ** [main]: missing files and missing columns *)

(** C8. When one of the three input files is absent, [main] prints
    exactly one line, ["Error: File not found - "] followed by the path of
    the absent file (the first absent one in the order clusterProfiler,
    gprofiler2, topGO when several are), returns without raising, and
    leaves the directory as it was: no output file is written. *)
Theorem missing_file_reported
    (order : SetOrder) (to_string : list string -> list ResultDf.row -> string)
    (results_dir : string) (d : directory) :
  clusterProfiler_enrichment_results_csv d = None \/
  gprofiler2_enrichment_results_csv d = None \/
  topGO_enrichment_results_csv d = None ->
  exists file_path,
    hd_error (missing_paths results_dir d) = Some file_path /\
    printed (fst (main to_string results_dir d))
    = [("Error: File not found - " ++ file_path)%string] /\
    outcome (fst (main to_string results_dir d)) = inr tt /\
    snd (main to_string results_dir d) = d.
Proof.
  intro H. unfold main, missing_paths, file_not_found.
  destruct (clusterProfiler_enrichment_results_csv d) as [cpf|].
  2: { eexists. repeat split. }
  destruct (gprofiler2_enrichment_results_csv d) as [gpf|].
  2: { eexists. repeat split. }
  destruct (topGO_enrichment_results_csv d) as [tgf|].
  2: { eexists. repeat split. }
  destruct H as [H|[H|H]]; discriminate.
Qed.

(** [missing_file_reported] on the sample directory without its
    gprofiler2 file. *)
Lemma missing_file_reported_witness :
  printed (fst (@main insertion_order Examples.to_string "/project/results" Examples.results_without_gp))
  = ["Error: File not found - /project/results/gprofiler2_enrichment_results.csv"] /\
  outcome (fst (@main insertion_order Examples.to_string "/project/results" Examples.results_without_gp))
  = inr tt /\
  snd (@main insertion_order Examples.to_string "/project/results" Examples.results_without_gp)
  = Examples.results_without_gp.
Proof.
  destruct (missing_file_reported insertion_order Examples.to_string
              "/project/results" Examples.results_without_gp
              (or_intror (or_introl eq_refl)))
    as (file_path & Hp & Hprinted & Hout & Hdir).
  injection Hp as <-.
  split; [exact Hprinted|]. split; [exact Hout | exact Hdir].
Defined.

(** C9. A loader given a file that lacks a column of its schema raises
    [KeyError] naming a missing column of that schema (the first one it
    reads). When the three files are present and one of them lacks a
    required column, [main] ends with that [KeyError], raised while
    loading, and leaves the directory as it was: no output file is
    written. *)
Theorem missing_column_aborts :
  (forall df, lacks cp_required (columns df) ->
     exists c, In c cp_required /\ ~ In c (columns df) /\
               load_clusterprofiler_results df = inl (KeyError c)) /\
  (forall df, lacks gp_required (columns df) ->
     exists c, In c gp_required /\ ~ In c (columns df) /\
               load_gprofiler2_results df = inl (KeyError c)) /\
  (forall df, lacks tg_required (columns df) ->
     exists c, In c tg_required /\ ~ In c (columns df) /\
               load_topgo_results df = inl (KeyError c)) /\
  (forall (order : SetOrder) (to_string : list string -> list ResultDf.row -> string)
          (results_dir : string) (d : directory) cpf gpf tgf,
     clusterProfiler_enrichment_results_csv d = Some cpf ->
     gprofiler2_enrichment_results_csv d = Some gpf ->
     topGO_enrichment_results_csv d = Some tgf ->
     lacks cp_required (columns cpf) \/
     lacks gp_required (columns gpf) \/
     lacks tg_required (columns tgf) ->
     exists c,
       outcome (fst (main to_string results_dir d)) = inl (KeyError c) /\
       ((In c cp_required /\ ~ In c (columns cpf)) \/
        (In c gp_required /\ ~ In c (columns gpf)) \/
        (In c tg_required /\ ~ In c (columns tgf))) /\
       snd (main to_string results_dir d) = d).
Proof.
  assert (Hcp : forall df, lacks cp_required (columns df) ->
     exists c, In c cp_required /\ ~ In c (columns df) /\
               load_clusterprofiler_results df = inl (KeyError c)).
  { intros df H. apply lacks_first_missing in H as (c & E).
    pose proof (load_clusterprofiler_results_columns df) as L. rewrite E in L.
    apply first_missing_Some in E as [H1 H2]. now exists c. }
  assert (Hgp : forall df, lacks gp_required (columns df) ->
     exists c, In c gp_required /\ ~ In c (columns df) /\
               load_gprofiler2_results df = inl (KeyError c)).
  { intros df H. apply lacks_first_missing in H as (c & E).
    pose proof (load_gprofiler2_results_columns df) as L. rewrite E in L.
    apply first_missing_Some in E as [H1 H2]. now exists c. }
  assert (Htg : forall df, lacks tg_required (columns df) ->
     exists c, In c tg_required /\ ~ In c (columns df) /\
               load_topgo_results df = inl (KeyError c)).
  { intros df H. apply lacks_first_missing in H as (c & E).
    pose proof (load_topgo_results_columns df) as L. rewrite E in L.
    apply first_missing_Some in E as [H1 H2]. now exists c. }
  split; [exact Hcp|]. split; [exact Hgp|]. split; [exact Htg|].
  intros order to_string results_dir d cpf gpf tgf Ecp Egp Etg H.
  unfold main. rewrite Ecp, Egp, Etg. unfold create_comparison_table.
  (* the loaders run in turn: the first file with a missing column stops
     the run *)
  pose proof (load_clusterprofiler_results_columns cpf) as Lcp.
  destruct (first_missing cp_required (columns cpf)) as [c|] eqn:Fcp.
  { apply first_missing_Some in Fcp. rewrite Lcp. cbn. exists c.
    split; [reflexivity|]. split; [now left | reflexivity]. }
  destruct Lcp as (cp & -> & _). apply first_missing_None in Fcp.
  pose proof (load_gprofiler2_results_columns gpf) as Lgp.
  destruct (first_missing gp_required (columns gpf)) as [c|] eqn:Fgp.
  { apply first_missing_Some in Fgp. rewrite Lgp. cbn. exists c.
    split; [reflexivity|]. split; [right; now left | reflexivity]. }
  destruct Lgp as (gp & ->). apply first_missing_None in Fgp.
  destruct H as [H|[H|H]]; [contradiction | contradiction |].
  destruct (Htg tgf H) as (c & H1 & H2 & ->). cbn. exists c.
  split; [reflexivity|]. split; [right; right; now split | reflexivity].
Qed.

(** [missing_column_aborts] on the sample directory whose clusterProfiler
    file has no [qvalue] column. *)
Lemma missing_column_aborts_witness :
  load_clusterprofiler_results Examples.cp_without_qvalue = inl (KeyError "qvalue") /\
  outcome (fst (@main insertion_order Examples.to_string "/project/results" Examples.results_bad_schema))
  = inl (KeyError "qvalue") /\
  snd (@main insertion_order Examples.to_string "/project/results" Examples.results_bad_schema)
  = Examples.results_bad_schema.
Proof.
  assert (L : lacks cp_required (columns Examples.cp_without_qvalue)).
  { exists "qvalue". split; [simpl; tauto|]. simpl. intuition discriminate. }
  destruct missing_column_aborts as (Hcp & _ & _ & Hmain).
  destruct (Hmain insertion_order Examples.to_string "/project/results"
              Examples.results_bad_schema _ _ _ eq_refl eq_refl eq_refl
              (or_introl L)) as (c & Hout & _ & Hdir).
  split; [reflexivity|]. split; [reflexivity | exact Hdir].
Defined.

(** C10. The [significance_threshold] argument has no effect: two calls
    of [create_comparison_table] on the same files with any two thresholds
    print the same lines and return the same table. The flags are
    computed in the loaders against the constant 0.05: clusterProfiler's
    from the q-value, topGO's from the parsed p-value. *)
Theorem significance_threshold_unused
    (order : SetOrder)
    (cpf : DataFrame CP.record) (gpf : DataFrame GP.record)
    (tgf : DataFrame TG.record) (threshold1 threshold2 : float) :
  create_comparison_table cpf gpf tgf threshold1
  = create_comparison_table cpf gpf tgf threshold2 /\
  match load_clusterprofiler_results cpf with
  | inr cp => Forall (fun r => CpResults.clusterprofiler_significant r
                               = (CpResults.clusterprofiler_qvalue r <? 0.05)%float) cp
  | inl _ => True
  end /\
  match load_topgo_results tgf with
  | inr tg => Forall (fun r => TgResults.topgo_significant_flag r
                               = (TgResults.topgo_pvalue r <? 0.05)%float) tg
  | inl _ => True
  end.
Proof.
  split; [reflexivity|]. split.
  - pose proof (load_clusterprofiler_results_columns cpf) as L.
    destruct (first_missing cp_required (columns cpf)).
    + now rewrite L.
    + destruct L as (cp & -> & F). exact F.
  - pose proof (load_topgo_results_columns tgf) as L.
    destruct (first_missing tg_required (columns tgf)).
    + now rewrite L.
    + destruct L as (tg & -> & F). exact F.
Qed.

(** * Further properties of the program *)

(** ** Left joins, row by row *)

Module JoinFacts.

Import MasterDf.

Section Join.

Context {R : Type} (key : R -> option string) (attach : row -> option R -> row).
Hypothesis attach_term_id : forall m o, term_id (attach m o) = term_id m.

(** A row of the join is a row of [left] with a partner that has its key,
    or without a partner when no row of [right] has its key. *)
Lemma merge_inv (left : list row) (right : list R) (m' : row) :
  In m' (merge key attach left right) ->
  exists m o, In m left /\ m' = attach m o /\
    match o with
    | Some r => In r right /\ key r = Some (term_id m)
    | None => forall r, In r right -> key r <> Some (term_id m)
    end.
Proof.
  unfold merge. intro H. apply in_flat_map in H as (m & Hm & H).
  exists m. destruct (filter _ right) as [|r0 rest] eqn:F.
  - destruct H as [<-|[]]. exists None.
    split; [exact Hm|]. split; [reflexivity|].
    intros r Hr E.
    assert (In r (filter (fun r => key_is (term_id m) (key r)) right)) as Hf.
    { apply filter_In. split; [exact Hr|]. rewrite E. apply String.eqb_refl. }
    rewrite F in Hf. exact Hf.
  - apply in_map_iff in H as (r & <- & Hr). exists (Some r).
    split; [exact Hm|]. split; [reflexivity|].
    rewrite <- F in Hr. apply filter_In in Hr as [Hr K]. split; [exact Hr|].
    unfold key_is in K. destruct (key r) as [k|]; [|discriminate].
    apply String.eqb_eq in K. now subst.
Qed.

(** Every row of [left] is kept, with some partner or none. *)
Lemma merge_keeps (left : list row) (right : list R) (m : row) :
  In m left -> exists o, In (attach m o) (merge key attach left right).
Proof.
  intro Hm. unfold merge.
  destruct (filter (fun r => key_is (term_id m) (key r)) right) as [|r0 rest] eqn:F.
  - exists None. apply in_flat_map. exists m. split; [exact Hm|].
    rewrite F. now left.
  - exists (Some r0). apply in_flat_map. exists m. split; [exact Hm|].
    rewrite F. now left.
Qed.


(** The join has the keys of [left], whatever [right] holds. *)
Lemma merge_keys (left : list row) (right : list R) (t : string) :
  In t (map term_id (merge key attach left right)) <-> In t (map term_id left).
Proof.
  split; intro H; apply in_map_iff in H as (m & <- & Hm).
  - apply merge_inv in Hm as (m0 & o & Hm0 & -> & _).
    rewrite attach_term_id. now apply in_map.
  - destruct (merge_keeps left right m Hm) as (o & Ho).
    rewrite <- (attach_term_id m o). now apply in_map.
Qed.

End Join.

End JoinFacts.

Section MasterFacts.

Context {order : SetOrder}.

Variables (cp : list CpResults.row) (gp : list GpResults.row)
          (tg : list TgResults.row).

(** [master_df] has exactly the keys of [all_terms], with or without
    duplicate keys in the three tables. *)
Lemma merged_keys (t : string) :
  In t (map MasterDf.term_id (merged cp gp tg)) <-> In t (all_terms cp gp tg).
Proof.
  unfold merged. rewrite !JoinFacts.merge_keys by reflexivity.
  unfold MasterDf.of_terms. rewrite map_map, map_id. reflexivity.
Qed.

(** Each method's slot of a row of [master_df]: a row of the method's
    table with the key of the row, or nothing when the table has no row
    with that key. *)
Lemma merged_slots (m : MasterDf.row) :
  In m (merged cp gp tg) ->
  match MasterDf.cp m with
  | Some c => In c cp /\ CpResults.term_id c = Some (MasterDf.term_id m)
  | None => forall c, In c cp -> CpResults.term_id c <> Some (MasterDf.term_id m)
  end /\
  match MasterDf.gp m with
  | Some g => In g gp /\ GpResults.term_id g = Some (MasterDf.term_id m)
  | None => forall g, In g gp -> GpResults.term_id g <> Some (MasterDf.term_id m)
  end /\
  match MasterDf.tg m with
  | Some t => In t tg /\ TgResults.term_id t = Some (MasterDf.term_id m)
  | None => forall t, In t tg -> TgResults.term_id t <> Some (MasterDf.term_id m)
  end.
Proof.
  unfold merged. intro H.
  apply JoinFacts.merge_inv in H as (m2 & o2 & H & -> & P2).
  apply JoinFacts.merge_inv in H as (m1 & o1 & H & -> & P1).
  apply JoinFacts.merge_inv in H as (m0 & o0 & H & -> & P0).
  unfold MasterDf.of_terms in H. apply in_map_iff in H as (t & <- & _).
  cbn in *. split; [exact P0|]. split; [exact P1 | exact P2].
Qed.





End MasterFacts.

(** The further sample files load. *)

Module ExampleFacts2.

Import Examples.



End ExampleFacts2.

(** ** The table, term by term *)



Section CellFacts.

Context {order : SetOrder}.




End CellFacts.





(** ** Names and counts *)

Section FindFacts.

Context {R : Type} (key : R -> option string).





End FindFacts.





(** ** The loaders on complete headers *)


Lemma Forall2_map_row {A B : Type} (rel : A -> B -> Prop) (f : A -> B)
    (l : list A) :
  (forall a, rel a (f a)) -> Forall2 rel l (map f l).
Proof. intro H. induction l; cbn; constructor; auto. Qed.

Lemma Forall2_In_r {A B : Type} (rel : A -> B -> Prop) (l : list A) (l' : list B)
    (b : B) :
  Forall2 rel l l' -> In b l' -> exists a, In a l /\ rel a b.
Proof.
  induction 1 as [|a b' l l' Hab _ IH]; intro Hb; [destruct Hb|].
  destruct Hb as [->|Hb].
  - exists a. split; [now left | exact Hab].
  - destruct (IH Hb) as (a' & Ha' & Hr). exists a'. split; [now right | exact Hr].
Qed.

Lemma load_clusterprofiler_results_rows (df : DataFrame CP.record) :
  first_missing cp_required (columns df) = None ->
  exists cp, load_clusterprofiler_results df = inr cp /\
             Forall2 cp_row_of (rows df) cp.
Proof.
  unfold load_clusterprofiler_results, getitem, first_missing, cp_required.
  cbn [find]. read_columns; try discriminate. intros _.
  eexists. split; [reflexivity|].
  apply Forall2_map_row. intro r. unfold cp_row_of. cbn. tauto.
Qed.

Lemma load_gprofiler2_results_rows (df : DataFrame GP.record) :
  first_missing gp_required (columns df) = None ->
  exists gp, load_gprofiler2_results df = inr gp /\
             Forall2 gp_row_of (go_bp_rows df) gp.
Proof.
  unfold load_gprofiler2_results, getitem, first_missing, gp_required.
  cbn [find columns]. read_columns; try discriminate. intros _.
  eexists. split; [reflexivity|].
  apply Forall2_map_row. intro r. unfold gp_row_of. cbn. tauto.
Qed.

(** [Series.apply(f)] with the topGO row builder returns one row per
    input row. *)
Lemma Series_apply_parse {A B : Type} (fisher : A -> pyval) (mk : A -> float -> B)
    (l : list A) :
  exists l',
    Series_apply (fun r => x <- parse_p_value (fisher r) ;; ret (mk r x)) l = inr l' /\
    Forall2 (fun r b => exists x, parse_p_value (fisher r) = inr x /\ b = mk r x) l l'.
Proof.
  induction l as [|a l (l' & IH & F)]; cbn [Series_apply].
  - exists []. split; [reflexivity | constructor].
  - destruct (parse_p_value_returns (fisher a)) as (x & Hx).
    rewrite Hx, IH. cbn. eexists. split; [reflexivity|].
    constructor; [now exists x | exact F].
Qed.

Lemma load_topgo_results_rows (df : DataFrame TG.record) :
  first_missing tg_required (columns df) = None ->
  exists tg, load_topgo_results df = inr tg /\
             Forall2 tg_row_of (rows df) tg.
Proof.
  unfold load_topgo_results, getitem, first_missing, tg_required.
  cbn [find]. read_columns; try discriminate. intros _.
  match goal with
  | |- context [Series_apply ?f (rows df)] =>
      destruct (Series_apply_parse TG.fisher
                  (fun r x =>
                     {| TgResults.term_id := TG.GO_ID r;
                        TgResults.term_name := TG.Term r;
                        TgResults.topgo_pvalue_raw := TG.fisher r;
                        TgResults.topgo_annotated := TG.Annotated r;
                        TgResults.topgo_significant := TG.Significant r;
                        TgResults.topgo_expected := TG.Expected r;
                        TgResults.topgo_pvalue := x;
                        TgResults.topgo_significant_flag := (x <? 0.05)%float |})
                  (rows df)) as (tg & Htg & F)
  end.
  exists tg. split; [exact Htg|].
  eapply Forall2_impl; [|exact F]. intros r b (x & Hx & ->).
  unfold tg_row_of. cbn. tauto.
Qed.

(** A loader that returns was given a complete header. *)
Lemma load_clusterprofiler_results_inv (df : DataFrame CP.record)
    (cp : list CpResults.row) :
  load_clusterprofiler_results df = inr cp -> Forall2 cp_row_of (rows df) cp.
Proof.
  intro H. pose proof (load_clusterprofiler_results_columns df) as L.
  destruct (first_missing cp_required (columns df)) eqn:E; [congruence|].
  destruct (load_clusterprofiler_results_rows df E) as (cp' & H' & F).
  congruence.
Qed.

Lemma load_gprofiler2_results_inv (df : DataFrame GP.record)
    (gp : list GpResults.row) :
  load_gprofiler2_results df = inr gp -> Forall2 gp_row_of (go_bp_rows df) gp.
Proof.
  intro H. pose proof (load_gprofiler2_results_columns df) as L.
  destruct (first_missing gp_required (columns df)) eqn:E; [congruence|].
  destruct (load_gprofiler2_results_rows df E) as (gp' & H' & F).
  congruence.
Qed.

Lemma load_topgo_results_inv (df : DataFrame TG.record)
    (tg : list TgResults.row) :
  load_topgo_results df = inr tg -> Forall2 tg_row_of (rows df) tg.
Proof.
  intro H. pose proof (load_topgo_results_columns df) as L.
  destruct (first_missing tg_required (columns df)) eqn:E; [congruence|].
  destruct (load_topgo_results_rows df E) as (tg' & H' & F).
  congruence.
Qed.



(** X7. A term that gprofiler2's file lists only under sources other than
    ["GO:BP"], and that the two other methods do not report, has no row
    in the returned table. *)
Theorem other_sources_are_dropped
    (order : SetOrder)
    (cpf : DataFrame CP.record) (gpf : DataFrame GP.record)
    (tgf : DataFrame TG.record) (threshold : float)
    (table : list ResultDf.row) (t : string) :
  outcome (create_comparison_table cpf gpf tgf threshold) = inr table ->
  (forall r, In r (rows gpf) -> GP.term_id r = Some t ->
             eq_str (GP.source r) "GO:BP" = false) ->
  ~ In (Some t) (map CP.ID (rows cpf)) ->
  ~ In (Some t) (map TG.GO_ID (rows tgf)) ->
  ~ In t (map ResultDf.term_id table).
Proof.
  intros Hrun Hgp Hcp Htg Ht.
  apply create_comparison_table_inv in Hrun as (cp & gp & tg & Lcp & Lgp & Ltg & ->).
  apply (Permutation_in _ (comparison_table_term_ids _ _ _)) in Ht.
  apply merged_keys, all_terms_In in Ht.
  destruct Ht as [Ht|[Ht|Ht]]; apply in_map_iff in Ht as (x & E & Hx).
  - apply load_clusterprofiler_results_inv in Lcp.
    destruct (Forall2_In_r _ _ _ _ Lcp Hx) as (r & Hr & Hrel).
    apply Hcp. apply in_map_iff. exists r. split; [|exact Hr].
    destruct Hrel as (Eid & _). congruence.
  - apply load_gprofiler2_results_inv in Lgp.
    destruct (Forall2_In_r _ _ _ _ Lgp Hx) as (r & Hr & Hrel).
    unfold go_bp_rows in Hr. apply filter_In in Hr as [Hr Hsrc].
    destruct Hrel as (Eid & _).
    rewrite (Hgp r Hr) in Hsrc; [discriminate | congruence].
  - apply load_topgo_results_inv in Ltg.
    destruct (Forall2_In_r _ _ _ _ Ltg Hx) as (r & Hr & Hrel).
    apply Htg. apply in_map_iff. exists r. split; [|exact Hr].
    destruct Hrel as (Eid & _). congruence.
Qed.

(** [other_sources_are_dropped] on the sample files: the KEGG term of
    gprofiler2's file is not in the table. *)
Lemma other_sources_are_dropped_witness :
  In (Some "KEGG:04110") (map GP.term_id (rows Examples.gp_csv)) /\
  ~ In "KEGG:04110" (map ResultDf.term_id Examples.table).
Proof.
  split; [simpl; tauto|].
  apply (other_sources_are_dropped insertion_order Examples.cp_csv Examples.gp_csv
           Examples.tg_csv 0.05%float _ _ ExampleFacts.table_returned).
  - intros r [<-|[<-|[<-|[]]]] E; try discriminate E. reflexivity.
  - simpl. intuition discriminate.
  - simpl. intuition discriminate.
Defined.

(** ** Significance flags *)

Lemma ltb_nan_l (a b : float) : is_nan a = true -> (a <? b)%float = false.
Proof.
  intro H. rewrite ltb_spec, (FloatFacts.is_nan_true a H). reflexivity.
Qed.

(** X8. In every row of the returned table, clusterProfiler's flag is
    [True] exactly when the row's q-value is below 0.05 and topGO's flag
    is [True] exactly when the row's parsed p-value is below 0.05; a
    method whose value is missing in the row, because it does not report
    the term or because the cell is empty or unreadable, never flags the
    term as significant. *)
Theorem flags_follow_the_values
    (order : SetOrder)
    (cpf : DataFrame CP.record) (gpf : DataFrame GP.record)
    (tgf : DataFrame TG.record) (threshold : float)
    (table : list ResultDf.row) (r : ResultDf.row) :
  outcome (create_comparison_table cpf gpf tgf threshold) = inr table ->
  In r table ->
  is_True (ResultDf.clusterprofiler_significant r)
  = (ResultDf.clusterprofiler_qvalue r <? 0.05)%float /\
  is_True (ResultDf.topgo_significant_flag r)
  = (ResultDf.topgo_pvalue r <? 0.05)%float /\
  (is_nan (ResultDf.clusterprofiler_qvalue r) = true ->
   is_True (ResultDf.clusterprofiler_significant r) = false) /\
  (is_nan (ResultDf.topgo_pvalue r) = true ->
   is_True (ResultDf.topgo_significant_flag r) = false).
Proof.
  intros Hrun Hr.
  apply create_comparison_table_inv in Hrun as (cp & gp & tg & Lcp & Lgp & Ltg & ->).
  apply comparison_table_rows in Hr as (m & Hm & ->).
  apply merged_slots in Hm as (Scp & _ & Stg).
  apply load_clusterprofiler_results_inv in Lcp.
  apply load_topgo_results_inv in Ltg.
  assert (Fcp : is_True (ResultDf.clusterprofiler_significant (result_row m))
                = (ResultDf.clusterprofiler_qvalue (result_row m) <? 0.05)%float).
  { cbn. unfold MasterDf.clusterprofiler_significant, MasterDf.clusterprofiler_qvalue,
      MasterDf.num.
    destruct (MasterDf.cp m) as [c|]; [|reflexivity].
    destruct Scp as [Hc _].
    destruct (Forall2_In_r _ _ _ _ Lcp Hc) as (x & _ & Hrel).
    unfold cp_row_of in Hrel.
    destruct Hrel as (_ & _ & _ & Eq & _ & _ & _ & _ & _ & Es).
    cbn. rewrite Es, Eq. now destruct (CP.qvalue x <? 0.05)%float. }
  assert (Ftg : is_True (ResultDf.topgo_significant_flag (result_row m))
                = (ResultDf.topgo_pvalue (result_row m) <? 0.05)%float).
  { cbn. unfold MasterDf.topgo_significant_flag, MasterDf.topgo_pvalue, MasterDf.num.
    destruct (MasterDf.tg m) as [t|]; [|reflexivity].
    destruct Stg as [Ht _].
    destruct (Forall2_In_r _ _ _ _ Ltg Ht) as (x & _ & Hrel).
    unfold tg_row_of in Hrel.
    destruct Hrel as (_ & _ & _ & _ & _ & _ & _ & Es).
    cbn. rewrite Es. now destruct (TgResults.topgo_pvalue t <? 0.05)%float. }
  split; [exact Fcp|]. split; [exact Ftg|]. split; intro N.
  - rewrite Fcp. now apply ltb_nan_l.
  - rewrite Ftg. now apply ltb_nan_l.
Qed.

(** [flags_follow_the_values] on the row of GO:0004 of the sample table,
    whose topGO p-value cell is empty: topGO reports the term and does not
    flag it. *)
Lemma flags_follow_the_values_witness :
  exists r,
    nth_error Examples.table 3 = Some r /\
    ResultDf.term_id r = "GO:0004" /\
    ResultDf.topgo_annotated r = PInt 200 /\
    is_nan (ResultDf.topgo_pvalue r) = true /\
    is_True (ResultDf.topgo_significant_flag r) = false.
Proof.
  eexists. do 4 (split; [reflexivity|]).
  refine (proj2 (proj2 (proj2
            (flags_follow_the_values insertion_order _ _ _ _ _ _
               ExampleFacts.table_returned
               (or_intror (or_intror (or_intror (or_introl eq_refl))))))) _).
  reflexivity.
Defined.



(** ** [main]: saving the table *)



(** X11. Running [main] again on the directory it left behind prints the
    same lines, ends the same way and leaves the same directory: the
    output file is overwritten with the same table, and in no case are
    the input files changed. *)
Theorem main_again_changes_nothing
    (order : SetOrder) (to_string : list string -> list ResultDf.row -> string)
    (results_dir : string) (d : directory) :
  main to_string results_dir (snd (main to_string results_dir d))
  = main to_string results_dir d /\
  inputs (snd (main to_string results_dir d)) = inputs d.
Proof.
  unfold main, file_not_found, inputs.
  destruct (clusterProfiler_enrichment_results_csv d) as [cpf|] eqn:Ecp;
    [|cbn; rewrite Ecp; split; reflexivity].
  destruct (gprofiler2_enrichment_results_csv d) as [gpf|] eqn:Egp;
    [|cbn; rewrite Ecp, Egp; split; reflexivity].
  destruct (topGO_enrichment_results_csv d) as [tgf|] eqn:Etg;
    [|cbn; rewrite Ecp, Egp, Etg; split; reflexivity].
  destruct (outcome (create_comparison_table cpf gpf tgf 0.05%float))
    as [e|table] eqn:Hrun; cbn;
    rewrite ?Ecp, ?Egp, ?Etg; cbn; rewrite ?Hrun; split; reflexivity.
Qed.

(** ** The sort: ties and repetition *)

Lemma tied_precedes (x y z : ResultDf.row) :
  tied x y = true -> tied x z = true -> ResultDf.precedes y z = true.
Proof.
  unfold tied. intros Hxy Hxz.
  apply andb_true_iff in Hxy as [_ Hyx]. apply andb_true_iff in Hxz as [Hxz _].
  eapply SortFacts.precedes_trans; eassumption.
Qed.

Lemma insert_keeps_ties (x y : ResultDf.row) (l : list ResultDf.row) :
  filter (tied x) (ResultDf.insert y l) = filter (tied x) (y :: l).
Proof.
  induction l as [|z l IH]; [reflexivity|].
  cbn [ResultDf.insert]. destruct (ResultDf.precedes y z) eqn:P; [reflexivity|].
  cbn [filter] in *. rewrite IH.
  destruct (tied x y) eqn:Ty; [|reflexivity].
  destruct (tied x z) eqn:Tz; [|reflexivity].
  rewrite (tied_precedes x y z Ty Tz) in P. discriminate.
Qed.

Lemma insert_sorted_head (x : ResultDf.row) (l : list ResultDf.row) :
  Forall (before x) l -> ResultDf.insert x l = x :: l.
Proof.
  intro H. destruct l as [|y l]; [reflexivity|].
  cbn. inversion H as [|? ? Hy _]; subst. unfold before in Hy. now rewrite Hy.
Qed.

(** X12. The sort of the table is stable and idempotent: the rows that tie
    with any given row on the three sort keys come out in the order in
    which they went in, and sorting a sorted table again leaves it as it
    is. *)
Theorem sort_values_is_stable :
  (forall (x : ResultDf.row) (l : list ResultDf.row),
      filter (tied x) (ResultDf.sort_values l) = filter (tied x) l) /\
  (forall l : list ResultDf.row,
      ResultDf.sort_values (ResultDf.sort_values l) = ResultDf.sort_values l).
Proof.
  split.
  - intros x l. induction l as [|y l IH]; [reflexivity|].
    cbn [ResultDf.sort_values fold_right].
    change (fold_right ResultDf.insert [] l) with (ResultDf.sort_values l).
    rewrite insert_keeps_ties. cbn [filter]. now rewrite IH.
  - intro l. pose proof (SortFacts.sort_values_sorted l) as S.
    induction S as [|y s S IH Hy]; [reflexivity|].
    cbn [ResultDf.sort_values fold_right].
    change (fold_right ResultDf.insert [] s) with (ResultDf.sort_values s).
    rewrite IH. now apply insert_sorted_head.
Qed.

(** ** [parse_p_value]: padding and a second ["<"] *)

Lemma rstrip_all (sp : ascii -> bool) (pad : string) :
  all_of sp pad = true -> PyStr.rstrip_of sp pad = EmptyString.
Proof.
  induction pad as [|c pad IH]; [reflexivity|]. cbn. intro H.
  apply andb_true_iff in H as [Hc Hp]. now rewrite (IH Hp), Hc.
Qed.

Lemma rstrip_pad (sp : ascii -> bool) (s pad : string) :
  all_of sp pad = true ->
  PyStr.rstrip_of sp (s ++ pad) = PyStr.rstrip_of sp s.
Proof.
  intro H. induction s as [|c s IH].
  - cbn. now apply rstrip_all.
  - cbn. now rewrite IH.
Qed.

Lemma strip_padded (sp : ascii -> bool) (pad s pad' : string) :
  all_of sp pad = true -> all_of sp pad' = true ->
  PyStr.strip_of sp (pad ++ s ++ pad') = PyStr.strip_of sp s.
Proof.
  intros H H'. unfold PyStr.strip_of.
  rewrite PyStrFacts.lstrip_pad by assumption.
  rewrite <- !PyStrFacts.lstrip_rstrip. now rewrite rstrip_pad.
Qed.

(** A text that starts with ["<"] is not a float literal. *)
Lemma float_or_nan_less_than (s : string) : float_or_nan (String "<" s) = nan.
Proof.
  unfold float_or_nan, PyFloat.of_string.
  change (String "<" s) with ("" ++ String "<" s)%string at 1.
  rewrite (PyStrFacts.strip_pad_cons PyStr.is_c_space "" "<" s eq_refl eq_refl).
  cbn [PyFloat.drop_underscores]. change (Ascii.eqb "<" "_") with false. cbv iota.
  destruct (PyFloat.drop_underscores (Some "<"%char) _) as [r|]; [|reflexivity].
  reflexivity.
Qed.

(** X13. [parse_p_value] ignores whitespace around the text of a cell, and
    it removes one leading ["<"] only: a text with a second ["<"] after
    the first gives NaN. *)
Theorem parse_p_value_padding :
  (forall pad s pad',
      all_space pad = true -> all_space pad' = true ->
      parse_p_value (PStr (pad ++ s ++ pad')) = parse_p_value (PStr s)) /\
  (forall pad pad2 s,
      all_space pad = true -> all_space pad2 = true ->
      parse_p_value (PStr (pad ++ String "<" (pad2 ++ String "<" s))) = inr nan).
Proof.
  split.
  - intros pad s pad' H H'. rewrite !parse_p_value_text. unfold PyStr.strip.
    now rewrite strip_padded.
  - intros pad pad2 s H H2. rewrite parse_p_value_text. unfold PyStr.strip.
    rewrite PyStrFacts.strip_pad_cons by (assumption || reflexivity).
    cbn [PyStr.startswith PyStr.tail]. change (Ascii.eqb "<" "<") with true.
    cbv iota. rewrite PyStrFacts.strip_rstrip.
    rewrite PyStrFacts.strip_pad_cons by (assumption || reflexivity).
    now rewrite float_or_nan_less_than.
Qed.

(** [parse_p_value_padding] on the cells [" 0.01 "] and ["< <0.01"]. *)
Lemma parse_p_value_padding_witness :
  parse_p_value (PStr "  0.01 ") = inr 0.01%float /\
  parse_p_value (PStr "< <0.01") = inr nan.
Proof.
  destruct parse_p_value_padding as [Hpad Hlt]. split.
  - etransitivity; [exact (Hpad "  " "0.01" " " eq_refl eq_refl)|].
    vm_compute. reflexivity.
  - exact (Hlt "" " " "0.01" eq_refl eq_refl).
Defined.

(** ** The console report *)

Section ReportFacts.

Context {order : SetOrder}.


End ReportFacts.





(** ** What is printed *)

(** X15. When the three files load, [create_comparison_table] prints five
    lines: the numbers of rows of clusterProfiler's file, of the
    ["GO:BP"] rows of gprofiler2's file and of the rows of topGO's file,
    then the number of distinct term identifiers; with unique identifiers
    in each table that last number is the number of rows of the returned
    table. *)
Theorem printed_counts
    (order : SetOrder)
    (cpf : DataFrame CP.record) (gpf : DataFrame GP.record)
    (tgf : DataFrame TG.record) (threshold : float)
    (cp : list CpResults.row) (gp : list GpResults.row) (tg : list TgResults.row) :
  load_clusterprofiler_results cpf = inr cp ->
  load_gprofiler2_results gpf = inr gp ->
  load_topgo_results tgf = inr tg ->
  let distinct := List.length (nodup string_dec (reported_terms cp gp tg)) in
  printed (create_comparison_table cpf gpf tgf threshold)
  = ["Loading results from each method...";
     fstr ["Loaded "; PyRepr.of_nat (List.length (rows cpf));
           " clusterProfiler results"];
     fstr ["Loaded "; PyRepr.of_nat (List.length (go_bp_rows gpf));
           " gprofiler2 results"];
     fstr ["Loaded "; PyRepr.of_nat (List.length (rows tgf)); " topGO results"];
     fstr ["Found "; PyRepr.of_nat distinct; " unique terms across all methods"]] /\
  (NoDup (dropna (map CpResults.term_id cp)) ->
   NoDup (dropna (map GpResults.term_id gp)) ->
   NoDup (dropna (map TgResults.term_id tg)) ->
   List.length (comparison_table cp gp tg) = distinct).
Proof.
  intros Lcp Lgp Ltg. cbv zeta.
  assert (N : List.length (all_terms cp gp tg)
              = List.length (nodup string_dec (reported_terms cp gp tg))).
  { unfold all_terms, reported_terms. apply Permutation_length, set_list_perm. }
  split.
  - unfold create_comparison_table. rewrite Lcp, Lgp, Ltg. cbn [bind ret printed app].
    rewrite N.
    rewrite (Forall2_length (load_clusterprofiler_results_inv _ _ Lcp)).
    rewrite (Forall2_length (load_gprofiler2_results_inv _ _ Lgp)).
    rewrite (Forall2_length (load_topgo_results_inv _ _ Ltg)).
    reflexivity.
  - intros Ucp Ugp Utg. rewrite <- N.
    rewrite <- (merged_term_ids cp gp tg Ucp Ugp Utg).
    rewrite <- (Permutation_length (comparison_table_term_ids cp gp tg)).
    now rewrite !length_map.
Qed.

(** [printed_counts] on the sample files. *)
Lemma printed_counts_witness :
  printed (@create_comparison_table insertion_order Examples.cp_csv
             Examples.gp_csv Examples.tg_csv 0.05%float)
  = ["Loading results from each method...";
     "Loaded 2 clusterProfiler results";
     "Loaded 2 gprofiler2 results";
     "Loaded 4 topGO results";
     "Found 5 unique terms across all methods"] /\
  List.length Examples.table = 5.
Proof.
  destruct (printed_counts insertion_order _ _ _ 0.05%float _ _ _
              ExampleFacts.cp_loads ExampleFacts.gp_loads ExampleFacts.tg_loads)
    as [Hprinted Hrows].
  split; [exact Hprinted|]. reflexivity.
Defined.

